(** * django-raster-aggregation: a shallow embedding of the models, the
      shapefile parser and the views, with the properties of the
      specification proved against them.

    Layout: the Python built-ins the code relies on ([Py]), the exceptions
    ([Exn]), the external collaborators as interfaces (GEOS/GDAL geometry,
    the django-raster [Aggregator], the clock), then one module per source
    file: [ValueView] and [Views] (views.py), [Models] (models.py),
    [Parser] (parser.py) and [Urls] (urls.py); a small backend to evaluate
    the definitions on ([Fixture]); and the properties, each with an
    evaluation on that backend. *)

From stdpp Require Import gmap strings list sorting.
From Stdlib Require Import ZArith Ascii DecimalString.

(** ** Python built-ins *)

Module Py.

(** [str(n)] for a Python int: decimal, with a leading minus sign. *)
Definition str_int (n : Z) : string :=
  NilZero.string_of_int (Z.to_int n).

(** [str(x)] where [x] is a [str] or [None]. *)
Definition str_opt (o : option string) : string :=
  match o with
  | Some s => s
  | None => "None"
  end.

(** [sep.join(l)]. *)
Fixpoint join (sep : string) (l : list string) : string :=
  match l with
  | [] => ""
  | [s] => s
  | s :: rest => s +:+ sep +:+ join sep rest
  end.

(** The double-quote character (code 34) and the newline (code 10). *)
Definition dq : string := String (ascii_of_nat 34) EmptyString.
Definition nl : string := String (ascii_of_nat 10) EmptyString.

Definition is_digit (c : ascii) : bool :=
  let n := nat_of_ascii c in
  bool_decide (48 ≤ n ≤ 57)%nat.

(** A match of the regular expression [[0-9]+]. *)
Definition is_digits (s : string) : bool :=
  match s with
  | EmptyString => false
  | _ => forallb is_digit (String.list_ascii_of_string s)
  end.

Definition digit_val (c : ascii) : Z := Z.of_nat (nat_of_ascii c) - 48.

(** [int(s)] on a string of [[0-9]+]: the decimal value, leading zeros
    allowed. *)
Definition int_digits (s : string) : Z :=
  fold_left (λ acc c, 10 * acc + digit_val c)%Z (String.list_ascii_of_string s) 0%Z.

(** [s.lower()] on ASCII letters; other characters are kept (the code
    compares the result with ASCII text only). *)
Definition lower_char (c : ascii) : ascii :=
  let n := nat_of_ascii c in
  if bool_decide (65 ≤ n ≤ 90)%nat then ascii_of_nat (n + 32) else c.

Fixpoint lower (s : string) : string :=
  match s with
  | EmptyString => EmptyString
  | String c rest => String (lower_char c) (lower rest)
  end.

End Py.

(** ** Exceptions and results *)

(** The exceptions the framework's own [initial] can raise (content
    negotiation, authentication, permissions, throttling). *)
Inductive DRFError :=
| NotAcceptable
| NotAuthenticated
| AuthenticationFailed
| PermissionDenied
| Throttled.

Inductive Exn :=
| MissingQueryParameter (detail : string)   (* views.py, status_code 500 *)
| Http404 (msg : string)                    (* django.http.Http404 *)
| Resolver404                               (* no URL pattern matches *)
| DoesNotExist                              (* Model.objects.get finds no row *)
| ValueError                                (* a lookup value that is no integer *)
| IntegrityError                            (* a database constraint is violated *)
| AttributeError                            (* attribute access on None *)
| AggregatorError                           (* raised inside raster.valuecount *)
| GEOSException                             (* raised inside GEOS/GDAL *)
| APIError (e : DRFError).

(** A computation that returns or raises. *)
Inductive Res (A : Type) :=
| Ret (a : A)
| Raise (e : Exn).
Arguments Ret {A} a.
Arguments Raise {A} e.

Global Instance Res_ret : MRet Res := λ A a, Ret a.
Global Instance Res_bind : MBind Res := λ A B k m,
  match m with
  | Ret a => k a
  | Raise e => Raise e
  end.

Definition of_option {A} (o : option A) (e : Exn) : Res A :=
  match o with
  | Some a => Ret a
  | None => Raise e
  end.

(** The status code of the response an exception ends in. *)
Definition status_code (e : Exn) : Z :=
  match e with
  | MissingQueryParameter _ => 500
  | Http404 _ | Resolver404 => 404
  | APIError NotAcceptable => 406
  | APIError NotAuthenticated | APIError AuthenticationFailed => 401
  | APIError PermissionDenied => 403
  | APIError Throttled => 429
  | _ => 500
  end.

(** ** views.py: the required query parameters of the statistics endpoint *)

Module ValueView.

(** [request.GET]: the pairs of the query string, in order; a key may
    repeat. *)
Definition QueryDict := list (string * string).

(** [key in request.GET]. *)
Definition contains (key : string) (q : QueryDict) : bool :=
  bool_decide (key ∈ q.*1).

Section Dispatch.
(** The state the request handler works on (database, computed
    aggregations) and the response it builds. *)
Context {State Response : Type}.
(** [super().initial]: the framework's checks. *)
Variable super_initial : QueryDict → option DRFError.
(** The handler the router selects (list or retrieve); it serializes the
    areas and computes the aggregation values. *)
Variable handler : State → QueryDict → State * Res Response.

(** [AggregationAreaValueViewSet.initial]. *)
Definition initial (GET : QueryDict) : Res unit :=
  if negb (contains "formula" GET) then
    Raise (MissingQueryParameter "Missing query parameter: formula")
  else if negb (contains "layers" GET) then
    Raise (MissingQueryParameter "Missing query parameter: layers")
  else
    match super_initial GET with
    | Some e => Raise (APIError e)
    | None => Ret ()
    end.

(** [APIView.dispatch]: [initial] runs first; the handler runs only when
    [initial] returned. *)
Definition dispatch (st : State) (GET : QueryDict) : State * Res Response :=
  match initial GET with
  | Raise e => (st, Raise e)
  | Ret _ => handler st GET
  end.

End Dispatch.

End ValueView.

(** ** External collaborators *)

(** GEOS, GDAL/OGR and PostGIS geometry, django-raster's tile arithmetic and
    the Mapbox vector tile encoder.  [convert_to_multipolygon] and
    [WEB_MERCATOR_SRID] come from raster_aggregation/utils.py. *)
Class Geometry := {
  Geom : Type;                                   (* GEOSGeometry *)
  OGRGeom : Type;                                (* OGRGeometry *)
  SRS : Type;                                    (* SpatialReference *)
  CT : Type;                                     (* CoordTransform *)
  Tolerance : Type;                              (* float *)
  WEB_MERCATOR_SRID : Z;
  (* geom.simplify(tolerance=..., preserve_topology=...) *)
  simplify : Geom → Tolerance → bool → Geom;
  convert_to_multipolygon : Geom → Res Geom;
  valid_reason : Geom → string;
  empty : Geom → bool;
  (* CoordTransform(lyr.srs, SpatialReference(srid)) *)
  CoordTransform : option SRS → Z → Res CT;
  (* wgsgeom.transform(ct) *)
  ogr_transform : OGRGeom → CT → Res OGRGeom;
  (* wgsgeom.coord_dim = 2; wgsgeom.geos *)
  geos_2d : OGRGeom → Res Geom;
  (* OGRGeometry.from_bbox(tile_bounds(x, y, z)) with its srid set, as GEOS *)
  tile_bounds_geom : Z → Z → Z → Z → Geom;
  (* the lookup geom__intersects *)
  intersects : Geom → Geom → bool;
  Intersection : Geom → Geom → Geom;
  Transform : Geom → Z → Geom;
  geojson : Geom → string;
  wkb : Geom → list Byte.byte;
  (* mapbox_vector_tile.encode({"name": ..., "features": [...]}), a feature
     given as (geometry, (id, name)) *)
  mvt_encode :
    string → list (list Byte.byte * (option Z * option string)) →
    list Byte.byte;
}.

(** django-raster's [Aggregator], and Django's coercion of a lookup value to
    an integer primary key. *)
Class Raster `{Geometry} := {
  Count : Type;                                  (* int or float *)
  str_count : Count → string;                    (* str(v) *)
  (* Aggregator(layer_dict, formula, zoom, geom, acres, grouping).value_count() *)
  value_count :
    gmap string string → string → Z → Geom → bool → string →
    Res (gmap string Count);
  (* IntegerField.to_python *)
  to_int : string → option Z;
}.

(** [datetime.datetime.now().strftime('%Y-%m-%d %T')] at the n-th reading of
    the clock. *)
Class Clock := { now : nat → string }.

(** ** models.py *)

Module Models.
Section Models.
Context `{Raster} `{Clock}.

(** AggregationLayer, without [description] and [modified]; the file of
    [shapefile] is an argument of [Parser.parse]. *)
Record AggregationLayer := {
  al_id : Z;
  al_name : option string;
  name_column : string;
  min_zoom_level : Z;
  max_zoom_level : Z;
  simplification_tolerance : Tolerance;
  parse_log : string;
}.

Record AggregationLayerGroup := {
  grp_id : Z;
  grp_name : string;
}.

Record AggregationLayerZoomRange := {
  zr_id : Z;
  zr_aggregationlayergroup : Z;
  zr_aggregationlayer : Z;
  min_zoom : Z;
  max_zoom : Z;
}.

Record AggregationArea := {
  area_id : option Z;
  area_name : option string;
  aggregationlayer : option Z;
  geom : Geom;
  geom_simplified : option Geom;
}.

(** The columns of a ValueCountResult, without [created]; its many-to-many
    [rasterlayers] is the through table of the database. *)
Record ValueCountResult := {
  vcr_id : option Z;                   (* None until the row is inserted *)
  aggregationarea : Z;
  formula : string;
  layer_names : gmap string string;
  zoom : Z;
  units : string;
  grouping : string;
  value : gmap string string;
}.

(** The tables.  A row list is in storage order; an id sequence holds
    the last id it gave out. *)
Record DB := {
  aggregationlayers : list AggregationLayer;
  aggregationlayergroups : list AggregationLayerGroup;
  zoomranges : list AggregationLayerZoomRange;
  aggregationareas : list AggregationArea;
  aggregationarea_seq : Z;
  valuecountresults : list ValueCountResult;
  valuecountresult_seq : Z;
  (* rows (valuecountresult_id, rasterlayer_id) *)
  valuecountresult_rasterlayers : list (Z * Z);
  (* the ids of raster.models.RasterLayer *)
  rasterlayers : gset Z;
}.

Definition set_layers (db : DB) (v : list AggregationLayer) : DB :=
  {| aggregationlayers := v;
     aggregationlayergroups := aggregationlayergroups db;
     zoomranges := zoomranges db;
     aggregationareas := aggregationareas db;
     aggregationarea_seq := aggregationarea_seq db;
     valuecountresults := valuecountresults db;
     valuecountresult_seq := valuecountresult_seq db;
     valuecountresult_rasterlayers := valuecountresult_rasterlayers db;
     rasterlayers := rasterlayers db |}.

Definition set_areas (db : DB) (v : list AggregationArea) (seq : Z) : DB :=
  {| aggregationlayers := aggregationlayers db;
     aggregationlayergroups := aggregationlayergroups db;
     zoomranges := zoomranges db;
     aggregationareas := v;
     aggregationarea_seq := seq;
     valuecountresults := valuecountresults db;
     valuecountresult_seq := valuecountresult_seq db;
     valuecountresult_rasterlayers := valuecountresult_rasterlayers db;
     rasterlayers := rasterlayers db |}.

Definition set_results (db : DB) (v : list ValueCountResult) (seq : Z)
    (through : list (Z * Z)) : DB :=
  {| aggregationlayers := aggregationlayers db;
     aggregationlayergroups := aggregationlayergroups db;
     zoomranges := zoomranges db;
     aggregationareas := aggregationareas db;
     aggregationarea_seq := aggregationarea_seq db;
     valuecountresults := v;
     valuecountresult_seq := seq;
     valuecountresult_rasterlayers := through;
     rasterlayers := rasterlayers db |}.

Definition set_through (db : DB) (through : list (Z * Z)) : DB :=
  set_results db (valuecountresults db) (valuecountresult_seq db) through.

(** *** The ORM operations the code uses *)

(** [AggregationLayer.objects.get(id=i)]. *)
Definition get_layer (db : DB) (i : Z) : option AggregationLayer :=
  List.find (λ l, bool_decide (al_id l = i)) (aggregationlayers db).

(** [AggregationArea.objects.get(id=i)]. *)
Definition get_area (db : DB) (i : Z) : option AggregationArea :=
  List.find (λ a, bool_decide (area_id a = Some i)) (aggregationareas db).

(** UPDATE ... WHERE pk: every row the test selects is replaced. *)
Definition update_rows {A} (same : A → Prop) `{∀ r, Decision (same r)}
    (new : A) (rows : list A) : list A :=
  (λ r, if decide (same r) then new else r) <$> rows.

(** [Model.save] of an AggregationLayer that has an id: UPDATE, and INSERT
    when no row has the id. *)
Definition Model_save_layer (db : DB) (self : AggregationLayer) : DB :=
  let same := λ l, al_id l = al_id self in
  if decide (Exists same (aggregationlayers db))
  then set_layers db (update_rows same self (aggregationlayers db))
  else set_layers db (aggregationlayers db ++ [self]).

Definition with_parse_log (self : AggregationLayer) (text : string) :
    AggregationLayer :=
  {| al_id := al_id self; al_name := al_name self;
     name_column := name_column self;
     min_zoom_level := min_zoom_level self;
     max_zoom_level := max_zoom_level self;
     simplification_tolerance := simplification_tolerance self;
     parse_log := text |}.

(** [AggregationLayer.log]: [t] counts the readings of the clock so far. *)
Definition log (self : AggregationLayer) (db : DB) (t : nat) (msg : string)
    (reset : bool) : AggregationLayer * DB * nat :=
  let now_ := "[" +:+ now t +:+ "] " in
  let self :=
    if reset then with_parse_log self (now_ +:+ msg)
    else with_parse_log self (parse_log self +:+ Py.nl +:+ now_ +:+ msg) in
  (self, Model_save_layer db self, S t).

Definition with_area_id (self : AggregationArea) (i : Z) : AggregationArea :=
  {| area_id := Some i; area_name := area_name self;
     aggregationlayer := aggregationlayer self; geom := geom self;
     geom_simplified := geom_simplified self |}.

Definition with_geom_simplified (self : AggregationArea) (g : Geom) :
    AggregationArea :=
  {| area_id := area_id self; area_name := area_name self;
     aggregationlayer := aggregationlayer self; geom := geom self;
     geom_simplified := Some g |}.

(** [Model.save] of an AggregationArea: without an id, INSERT under the
    next id of the sequence; with an id, UPDATE, and INSERT when no row
    has it.  The primary key is unique. *)
Definition Model_save_area (db : DB) (self : AggregationArea) :
    DB * Res AggregationArea :=
  match area_id self with
  | None =>
      let i := (aggregationarea_seq db + 1)%Z in
      let self := with_area_id self i in
      if decide (Exists (λ a, area_id a = Some i) (aggregationareas db))
      then (set_areas db (aggregationareas db) i, Raise IntegrityError)
      else (set_areas db (aggregationareas db ++ [self]) i, Ret self)
  | Some i =>
      let same := λ a, area_id a = Some i in
      if decide (Exists same (aggregationareas db))
      then (set_areas db (update_rows same self (aggregationareas db))
              (aggregationarea_seq db), Ret self)
      else (set_areas db (aggregationareas db ++ [self])
              (aggregationarea_seq db), Ret self)
  end.

(** [AggregationArea.save]. *)
Definition AggregationArea_save (db : DB) (self : AggregationArea) :
    DB * Res AggregationArea :=
  match aggregationlayer self with
  | None => (db, Raise AttributeError)
  | Some layer_id =>
      match get_layer db layer_id with
      | None => (db, Raise DoesNotExist)
      | Some lyr =>
          let geom_ :=
            simplify (geom self) (simplification_tolerance lyr) true in
          match convert_to_multipolygon geom_ with
          | Raise e => (db, Raise e)
          | Ret geom_ =>
              let self := with_geom_simplified self geom_ in
              Model_save_area db self
          end
      end
  end.

(** *** ValueCountResult *)

(** [Meta.unique_together]: the columns of the uniqueness constraint.  The
    hstore column [layer_names] compares as a set of key-value pairs. *)
Definition unique_together (r : ValueCountResult) :
    Z * string * gmap string string * Z * string * string :=
  (aggregationarea r, formula r, layer_names r, zoom r, units r, grouping r).

Definition with_vcr_id (self : ValueCountResult) (i : Z) : ValueCountResult :=
  {| vcr_id := Some i; aggregationarea := aggregationarea self;
     formula := formula self; layer_names := layer_names self;
     zoom := zoom self; units := units self; grouping := grouping self;
     value := value self |}.

Definition with_value (self : ValueCountResult) (v : gmap string string) :
    ValueCountResult :=
  {| vcr_id := vcr_id self; aggregationarea := aggregationarea self;
     formula := formula self; layer_names := layer_names self;
     zoom := zoom self; units := units self; grouping := grouping self;
     value := v |}.

(** Another row holds the tuple of [self]. *)
Definition conflicts (self r : ValueCountResult) : Prop :=
  vcr_id r ≠ vcr_id self ∧ unique_together r = unique_together self.

Global Instance conflicts_dec self r : Decision (conflicts self r).
Proof. unfold conflicts. apply _. Defined.

(** [Model.save] of a ValueCountResult, with the primary key and the
    [unique_together] constraint checked by the database. *)
Definition Model_save_result (db : DB) (self : ValueCountResult) :
    DB * Res ValueCountResult :=
  let rows := valuecountresults db in
  let through := valuecountresult_rasterlayers db in
  match vcr_id self with
  | None =>
      let i := (valuecountresult_seq db + 1)%Z in
      let self := with_vcr_id self i in
      if decide (Exists (λ r, vcr_id r = Some i) rows ∨
                 Exists (conflicts self) rows)
      then (set_results db rows i through, Raise IntegrityError)
      else (set_results db (rows ++ [self]) i through, Ret self)
  | Some i =>
      let same := λ r, vcr_id r = Some i in
      if decide (Exists (conflicts self) rows)
      then (db, Raise IntegrityError)
      else if decide (Exists same rows)
      then (set_results db (update_rows same self rows)
              (valuecountresult_seq db) through, Ret self)
      else (set_results db (rows ++ [self])
              (valuecountresult_seq db) through, Ret self)
  end.

(** [RasterLayer.objects.get(id=layer_id)]. *)
Definition RasterLayer_get (db : DB) (layer_id : string) : Res Z :=
  match to_int layer_id with
  | None => Raise ValueError
  | Some i => if decide (i ∈ rasterlayers db) then Ret i else Raise DoesNotExist
  end.

(** [self.rasterlayers.add(lyr)]: a through row is added unless it is
    there. *)
Definition rasterlayers_add (db : DB) (pk lyr : Z) : DB :=
  let through := valuecountresult_rasterlayers db in
  if decide ((pk, lyr) ∈ through) then db
  else set_through db (through ++ [(pk, lyr)]).

(** The loop over [self.layer_names.values()]. *)
Fixpoint add_rasterlayers (db : DB) (pk : Z) (layer_ids : list string) :
    DB * Res unit :=
  match layer_ids with
  | [] => (db, Ret ())
  | layer_id :: rest =>
      match RasterLayer_get db layer_id with
      | Raise e => (db, Raise e)
      | Ret lyr => add_rasterlayers (rasterlayers_add db pk lyr) pk rest
      end
  end.

(** [dict.values()]. *)
Definition values (m : gmap string string) : list string :=
  (map_to_list m).*2.

(** [ValueCountResult.save]. *)
Definition ValueCountResult_save (db : DB) (self : ValueCountResult) :
    DB * Res ValueCountResult :=
  match get_area db (aggregationarea self) with
  | None => (db, Raise DoesNotExist)
  | Some area =>
      match value_count (layer_names self) (formula self) (zoom self)
              (geom area) (bool_decide (Py.lower (units self) = "acres"))
              (grouping self) with
      | Raise e => (db, Raise e)
      | Ret aggregation_result =>
          let self := with_value self (str_count <$> aggregation_result) in
          match Model_save_result db self with
          | (db, Raise e) => (db, Raise e)
          | (db, Ret self) =>
              match vcr_id self with
              | None => (db, Raise AttributeError)
              | Some pk =>
                  match add_rasterlayers db pk (values (layer_names self)) with
                  | (db, Raise e) => (db, Raise e)
                  | (db, Ret _) => (db, Ret self)
                  end
              end
          end
      end
  end.

(** The raster layers a stored result depends on: its through rows. *)
Definition depends_on (db : DB) (r : ValueCountResult) (lyr : Z) : Prop :=
  ∃ pk, vcr_id r = Some pk ∧ (pk, lyr) ∈ valuecountresult_rasterlayers db.

Global Instance depends_on_dec db r lyr : Decision (depends_on db r lyr).
Proof.
  unfold depends_on. destruct (vcr_id r) as [pk|].
  - destruct (decide ((pk, lyr) ∈ valuecountresult_rasterlayers db)).
    + left. eauto.
    + right. intros (pk' & [= <-] & ?). done.
  - right. intros (pk' & [=] & ?).
Defined.

(** [ValueCountResult.objects.filter(...).delete()]: the selected rows go,
    and with them their through rows. *)
Definition delete_results (db : DB) (sel : ValueCountResult → Prop)
    `{∀ r, Decision (sel r)} : DB :=
  let gone := filter sel (valuecountresults db) in
  set_results db
    (filter (λ r, ¬ sel r) (valuecountresults db))
    (valuecountresult_seq db)
    (filter (λ p, Some p.1 ∉ vcr_id <$> gone)
       (valuecountresult_rasterlayers db)).

(** The receiver of [rasterlayers_parser_ended]; [instance] is the id of
    the raster layer. *)
Definition remove_aggregation_results_after_rasterlayer_change
    (db : DB) (instance : Z) : DB :=
  delete_results db (λ r, depends_on db r instance).

(** The receiver of [post_save] of a Legend; [instance_id] is
    [instance.id].  The text column [grouping] is compared with the id's
    text. *)
Definition remove_aggregation_results_after_legend_change
    (db : DB) (instance_id : Z) : DB :=
  delete_results db (λ r, grouping r = Py.str_int instance_id).

(** [queryset.delete()] on AggregationAreas: the results of a deleted
    area go with it (the foreign key cascades). *)
Definition delete_areas (db : DB) (sel : AggregationArea → Prop)
    `{∀ a, Decision (sel a)} : DB :=
  let gone := filter sel (aggregationareas db) in
  let db := delete_results db
              (λ r, Some (aggregationarea r) ∈ area_id <$> gone) in
  set_areas db (filter (λ a, ¬ sel a) (aggregationareas db))
    (aggregationarea_seq db).

(** What the database keeps true of the results: primary keys and
    [unique_together] tuples do not repeat. *)
Definition results_unique (db : DB) : Prop :=
  NoDup (vcr_id <$> valuecountresults db)
  ∧ NoDup (unique_together <$> valuecountresults db).

(** The databases the code produces: one without cached results, and from a
    database that is produced, the one after a result is saved, after either
    receiver ran, after areas are deleted, and after any operation that
    leaves the table of the results alone. *)
Inductive reachable : DB → Prop :=
| reachable_init db :
    valuecountresults db = [] → reachable db
| reachable_save db self :
    reachable db → reachable (ValueCountResult_save db self).1
| reachable_rasterlayer_change db instance :
    reachable db →
    reachable (remove_aggregation_results_after_rasterlayer_change db instance)
| reachable_legend_change db instance_id :
    reachable db →
    reachable (remove_aggregation_results_after_legend_change db instance_id)
| reachable_delete_areas db (sel : AggregationArea → Prop)
    (dec : ∀ a, Decision (sel a)) :
    reachable db → reachable (delete_areas db sel)
| reachable_other db db' :
    reachable db → valuecountresults db' = valuecountresults db →
    reachable db'.

(** Every row of the through table belongs to a stored result. *)
Definition through_ok (db : DB) : Prop :=
  ∀ p, p ∈ valuecountresult_rasterlayers db →
       ∃ r, r ∈ valuecountresults db ∧ vcr_id r = Some p.1.

End Models.
End Models.


(** ** parser.py *)

Module Parser.
Import Models.
Section Parser.
Context `{Raster} `{Clock}.
(** [str(lyr.fields)], the text of a list of field names. *)
Variable repr_fields : list string → string.

(** A feature of the OGR layer: [feat.fid], [feat.geom] and
    [feat.get(column)]; the last two can raise. *)
Record OGRFeature := {
  fid : Z;
  feat_geom : Res OGRGeom;
  feat_get : string → Res (option string);
}.

(** [ds[0]]: the layer of the data source. *)
Record OGRLayer := {
  fields : list string;
  srs : option SRS;
  features : list OGRFeature;
}.

(** What [self.shapefile] holds, as far as the first three try blocks of
    [parse] look into it. *)
Inductive Shapefile :=
| Unreadable                 (* writing the chunks to the local file raises *)
| BadZip                     (* ZipFile or extractall raises *)
| NoLayer                    (* DataSource(tmpdir) or ds[0] raises *)
| Layer (lyr : OGRLayer).

(** The task's view of the world: the layer instance, the database and the
    number of clock readings. *)
Record Run := {
  self : AggregationLayer;
  db : DB;
  clock : nat;
}.

(** [self.log(msg)]. *)
Definition self_log (st : Run) (msg : string) : Run :=
  let '(self_, db_, t) := log (self st) (db st) (clock st) msg false in
  {| self := self_; db := db_; clock := t |}.

Definition with_db (st : Run) (db_ : DB) : Run :=
  {| self := self st; db := db_; clock := clock st |}.

(** [self.aggregationarea_set.create(name=..., aggregationlayer=self,
    geom=geom)]. *)
Definition aggregationarea_set_create (st : Run) (name : option string)
    (geom_ : Geom) : DB * Res AggregationArea :=
  AggregationArea_save (db st)
    {| area_id := None; area_name := name;
       aggregationlayer := Some (al_id (self st));
       geom := geom_; geom_simplified := None |}.

(** The body of the loop over the features. *)
Definition parse_feature (ct : CT) (st : Run) (feat : OGRFeature) : Run :=
  match wgsgeom ← feat_geom feat; ogr_transform wgsgeom ct with
  | Raise _ =>
      self_log st ("Warning: Failed to transform feature fid "
                   +:+ Py.str_int (fid feat) +:+ Py.nl)
  | Ret wgsgeom =>
      match g ← geos_2d wgsgeom; convert_to_multipolygon g with
      | Raise _ =>
          self_log st ("Warning: Failed to convert feature fid "
                       +:+ Py.str_int (fid feat) +:+ " to multipolygon"
                       +:+ Py.nl)
      | Ret geom_ =>
          if decide (valid_reason geom_ ≠ "Valid Geometry") then
            self_log st ("Warning: Found invalid geometry for feature fid "
                         +:+ Py.str_int (fid feat) +:+ Py.nl)
          else if empty geom_ then
            self_log st ("Warning: Failed to convert feature fid "
                         +:+ Py.str_int (fid feat) +:+ " to valid geometry"
                         +:+ Py.nl)
          else
            match feat_get feat (name_column (self st)) with
            | Raise _ =>
                self_log st
                  ("Warning: Failed to create AggregationArea for feature fid "
                   +:+ Py.str_int (fid feat) +:+ Py.nl)
            | Ret name =>
                match aggregationarea_set_create st name geom_ with
                | (db_, Raise _) =>
                    self_log (with_db st db_)
                      ("Warning: Failed to create AggregationArea for feature fid "
                       +:+ Py.str_int (fid feat) +:+ Py.nl)
                | (db_, Ret _) => with_db st db_
                end
            end
      end
  end.

(** [AggregationDataParser.parse], run on the layer instance [self_]. *)
Definition parse (self_ : AggregationLayer) (db_ : DB) (t : nat)
    (shapefile : Shapefile) : Run :=
  let st := self_log {| self := self_; db := db_; clock := t |}
              ("Started parsing Aggregation Layer "
               +:+ Py.str_int (al_id self_)) in
  match shapefile with
  | Unreadable =>
      self_log st "Error: Could not download file, aborted parsing"
  | BadZip =>
      self_log st "Error: Could not open zipfile, aborted parsing"
  | NoLayer =>
      self_log st "Error: Failed to extract layer from shapefile, aborted parsing"
  | Layer lyr =>
      if decide (Py.lower (name_column (self st)) ∉ Py.lower <$> fields lyr)
      then
        self_log st ("Error: Name column " +:+ Py.dq
                     +:+ name_column (self st) +:+ Py.dq
                     +:+ " not found, aborted parsing. Available columns: "
                     +:+ repr_fields (fields lyr))
      else
        match CoordTransform (srs lyr) WEB_MERCATOR_SRID with
        | Raise _ =>
            self_log st "Error: Layer srs not specified, aborted parsing"
        | Ret ct =>
            let st :=
              with_db st
                (delete_areas (db st)
                   (λ a, aggregationlayer a = Some (al_id (self st)))) in
            let st := fold_left (parse_feature ct) (features lyr) st in
            self_log st ("Finished parsing Aggregation Layer "
                         +:+ Py.str_int (al_id (self st)))
        end
  end.

(** *** The vocabulary of the properties of [parse] *)

(** The text [self.log] appends for the messages [msgs], the first of them
    stamped with the clock reading [t]. *)
Fixpoint entries (t : nat) (msgs : list string) : string :=
  match msgs with
  | [] => ""
  | msg :: rest =>
      Py.nl +:+ ("[" +:+ now t +:+ "] ") +:+ msg +:+ entries (S t) rest
  end.


(** The run fails before the loop over the features: the file cannot be
    read, unzipped or opened as a data source, the name column is not among
    the fields, or the coordinate transformation cannot be set up. *)
Definition file_level_failure (self_ : AggregationLayer)
    (shapefile : Shapefile) : Prop :=
  match shapefile with
  | Unreadable | BadZip | NoLayer => True
  | Layer lyr =>
      Py.lower (name_column self_) ∉ Py.lower <$> fields lyr
      ∨ ∃ e, CoordTransform (srs lyr) WEB_MERCATOR_SRID = Raise e
  end.





(** The row of the layer in the database is the instance of the run, and
    the instance still has the id and the tolerance of [self_]. *)
Definition layer_in_step (self_ : AggregationLayer) (st : Run) : Prop :=
  get_layer (db st) (al_id (self st)) = Some (self st)
  ∧ al_id (self st) = al_id self_
  ∧ name_column (self st) = name_column self_
  ∧ simplification_tolerance (self st) = simplification_tolerance self_.

(** An area as a run on [self_] stores it: of the layer, with a valid
    geometry that is not empty, and with the simplified geometry derived
    from it at the tolerance of the layer. *)
Definition stored_by_run (self_ : AggregationLayer) (a : AggregationArea) :
    Prop :=
  aggregationlayer a = Some (al_id self_)
  ∧ is_Some (area_id a)
  ∧ valid_reason (geom a) = "Valid Geometry"
  ∧ empty (geom a) = false
  ∧ ∃ g, convert_to_multipolygon
           (simplify (geom a) (simplification_tolerance self_) true) = Ret g
         ∧ geom_simplified a = Some g.

End Parser.
End Parser.


(** ** urls.py *)

Module Urls.

(** The named groups of the [vector_tiles] route, which are the keyword
    arguments of the view. *)
Record TilePath := {
  layergroup : string;
  z : string;
  x : string;
  y : string;
  response_format : string;
}.

(** [s] without the prefix [prefix], when it starts with it. *)
Fixpoint strip_prefix (prefix s : string) : option string :=
  match prefix, s with
  | EmptyString, _ => Some s
  | String a prefix, String b s =>
      if Ascii.eqb a b then strip_prefix prefix s else None
  | String _ _, EmptyString => None
  end.

(** [s.split(sep)] for a separator of one character. *)
Fixpoint split (sep : ascii) (s : string) : list string :=
  match s with
  | EmptyString => [EmptyString]
  | String c rest =>
      if Ascii.eqb c sep then EmptyString :: split sep rest
      else
        match split sep rest with
        | [] => [String c EmptyString]
        | piece :: pieces => String c piece :: pieces
        end
  end.

(** The longest prefix of digits of [s], and what follows it. *)
Fixpoint span_digits (s : string) : string * string :=
  match s with
  | EmptyString => (EmptyString, EmptyString)
  | String c rest =>
      if Py.is_digit c then
        let '(digits, suffix) := span_digits rest in (String c digits, suffix)
      else (EmptyString, s)
  end.

(** [$] of a regular expression also matches before a newline that ends the
    string. *)
Fixpoint drop_final_newline (s : string) : string :=
  match s with
  | EmptyString => EmptyString
  | String c rest =>
      if bool_decide (rest = EmptyString) && Ascii.eqb c (ascii_of_nat 10)
      then EmptyString
      else String c (drop_final_newline rest)
  end.

(** A match of [[^/]+]. *)
Definition no_slash (s : string) : bool :=
  match s with
  | EmptyString => false
  | _ => forallb (λ c, negb (Ascii.eqb c "/")) (String.list_ascii_of_string s)
  end.

(** The groups of the pattern
    [^vtiles/(?P<layergroup>[^/]+)/(?P<z>[0-9]+)/(?P<x>[0-9]+)/(?P<y>[0-9]+)(?P<response_format>\.json|\.pbf)$]
    are matched in two steps.  First the path is cut where the pattern can
    only cut it: after [vtiles/], at the slashes, and after the digits
    that follow the last slash. *)
Definition vector_tiles_groups (path : string) : option TilePath :=
  match strip_prefix "vtiles/" (drop_final_newline path) with
  | None => None
  | Some rest =>
      match split "/" rest with
      | [layergroup_; z_; x_; last] =>
          let '(y_, response_format_) := span_digits last in
          Some {| layergroup := layergroup_; z := z_; x := x_; y := y_;
                  response_format := response_format_ |}
      | _ => None
      end
  end.

(** Then each piece is held against its group. *)
Definition vector_tiles_match (p : TilePath) : bool :=
  no_slash (layergroup p) && Py.is_digits (z p) && Py.is_digits (x p)
  && Py.is_digits (y p)
  && (bool_decide (response_format p = ".json")
      || bool_decide (response_format p = ".pbf")).

(** The [vector_tiles] route on a request path: the keyword arguments for
    the view, or no match. *)
Definition vector_tiles_resolve (path : string) : option TilePath :=
  match vector_tiles_groups path with
  | Some p => if vector_tiles_match p then Some p else None
  | None => None
  end.

End Urls.

(** ** views.py: the vector tiles *)

Module Views.
Import Models Urls.
Section Views.
Context `{Raster}.

Inductive Body :=
| Text (s : string)
| Bytes (b : list Byte.byte).

(** [HttpResponse(content, content_type=...)]. *)
Record HttpResponse := {
  content : Body;
  content_type : string;
}.

(** [AggregationLayerGroup.objects.get(id=layergroup)]. *)
Definition get_group (db : DB) (layergroup : string) :
    Res AggregationLayerGroup :=
  match to_int layergroup with
  | None => Raise ValueError
  | Some i =>
      of_option
        (List.find (λ g, bool_decide (grp_id g = i)) (aggregationlayergroups db))
        DoesNotExist
  end.

(** [queryset.first()] on a queryset without an ordering: the rows are
    ordered by primary key and the first one is taken. *)
Definition pk_le {A} (pk : A → Z) : relation A := λ a b, (pk a ≤ pk b)%Z.

Global Instance pk_le_dec {A} (pk : A → Z) a b : Decision (pk_le pk a b).
Proof. unfold pk_le. apply _. Defined.

Definition first {A} (pk : A → Z) (qs : list A) : option A :=
  head (merge_sort (pk_le pk) qs).

(** [grp.aggregationlayerzoomrange_set.filter(min_zoom__lte=z,
    max_zoom__gte=z)]. *)
Definition zoomrange_set_filter (db : DB) (grp : AggregationLayerGroup)
    (z : Z) : list AggregationLayerZoomRange :=
  filter (λ r, zr_aggregationlayergroup r = grp_id grp
               ∧ (min_zoom r ≤ z)%Z ∧ (z ≤ max_zoom r)%Z)
    (zoomranges db).

(** The first lines of [VectorTilesView.get]: the zoom range entry, and with
    it the layer, to use for the tile. *)
Definition select_layerzoomrange (db : DB) (layergroup : string) (z : Z) :
    Res AggregationLayerZoomRange :=
  grp ← get_group db layergroup;
  match first zr_id (zoomrange_set_filter db grp z) with
  | None => Raise (Http404 "No layer found for this zoom level")
  | Some layerzoomrange => Ret layerzoomrange
  end.

(** The queryset [result]: the areas of the layer that intersect the tile,
    each annotated with [intersection]. *)
Definition tile_queryset (db : DB) (lyr : Z) (bounds : Geom) :
    list (AggregationArea * Geom) :=
  (λ a, (a, Transform (Intersection (geom a) bounds) WEB_MERCATOR_SRID))
  <$> filter (λ a, aggregationlayer a = Some lyr
                   ∧ intersects (geom a) bounds = true)
        (aggregationareas db).

(** [str(dat.id)]. *)
Definition str_id (o : option Z) : string :=
  match o with
  | Some i => Py.str_int i
  | None => "None"
  end.

Definition quoted (s : string) : string := Py.dq +:+ s +:+ Py.dq.

(** One feature of the GeoJSON text. *)
Definition json_feature (dat : AggregationArea * Geom) : string :=
  "{" +:+ quoted "geometry" +:+ ": " +:+ geojson dat.2 +:+ ", "
  +:+ quoted "properties" +:+ ": {" +:+ quoted "id" +:+ ": "
  +:+ str_id (area_id dat.1) +:+ ", " +:+ quoted "name" +:+ ": "
  +:+ quoted (Py.str_opt (area_name dat.1)) +:+ "}}".

Definition json_collection (result : list (AggregationArea * Geom)) : string :=
  "{" +:+ quoted "type" +:+ ": " +:+ quoted "FeatureCollection" +:+ ","
  +:+ quoted "features" +:+ ":[" +:+ Py.join "," (json_feature <$> result)
  +:+ "]}".

(** One feature of the vector tile. *)
Definition pbf_feature (dat : AggregationArea * Geom) :
    list Byte.byte * (option Z * option string) :=
  (wkb dat.2, (area_id dat.1, area_name dat.1)).

(** [bounds]: the box of the tile (x, y, z) as a geometry in Web Mercator;
    [z], [x] and [y] are matches of [[0-9]+]. *)
Definition tile_bounds (p : TilePath) : Geom :=
  tile_bounds_geom (Py.int_digits (x p)) (Py.int_digits (y p))
    (Py.int_digits (z p)) WEB_MERCATOR_SRID.

(** [VectorTilesView.get]. *)
Definition VectorTilesView_get (db : DB) (p : TilePath) : Res HttpResponse :=
  layerzoomrange ← select_layerzoomrange db (layergroup p) (Py.int_digits (z p));
  let lyr := zr_aggregationlayer layerzoomrange in
  let bounds := tile_bounds p in
  let result := tile_queryset db lyr bounds in
  if decide (response_format p = ".json") then
    Ret {| content := Text (json_collection result);
           content_type := "application/json" |}
  else if decide (response_format p = ".pbf") then
    Ret {| content := Bytes (mvt_encode "testlayer" (pbf_feature <$> result));
           content_type := "application/octet-stream" |}
  else
    Raise (Http404 ("Unknown response format " +:+ response_format p)).

(** [url(r'api/', include(router.urls))], the first route of
    [urlpatterns]: the answer of the statistics API when [api/] occurs in
    the path and the router resolves what follows it, and nothing when the
    route does not match. *)
Variable router_urls : string → option (Res HttpResponse).

(** The request handler on [urlpatterns]: the routes are tried in order and
    the view of the first that matches answers; a path that no route
    matches is answered with 404. *)
Definition get_response (db : DB) (path : string) : Res HttpResponse :=
  match router_urls path with
  | Some response => response
  | None =>
      match vector_tiles_resolve path with
      | Some kwargs => VectorTilesView_get db kwargs
      | None => Raise Resolver404
      end
  end.

End Views.
End Views.


(** ** views.py: the querysets of the area endpoints *)

Module AreaViews.
Import Models.
Section AreaViews.
Context `{Raster}.

(** [request.query_params.get(key)]: the last value given for the key, or
    None. *)
Definition QueryDict_get (key : string) (q : ValueView.QueryDict) :
    option string :=
  last (filter (λ kv, kv.1 = key) q).*2.

(** The coercion of the values of an [id__in] lookup: each one is turned
    into an integer, and one that is none raises. *)
Fixpoint prep_ids (values : list string) : Res (list Z) :=
  match values with
  | [] => Ret []
  | value :: rest =>
      match to_int value with
      | None => Raise ValueError
      | Some i => ns ← prep_ids rest; Ret (i :: ns)
      end
  end.

(** The row test of [id__in]: the row has an id, and it is one of the
    values. *)
Definition id_in (ns : list Z) (a : AggregationArea) : Prop :=
  match area_id a with
  | Some i => i ∈ ns
  | None => False
  end.

Global Instance id_in_dec ns a : Decision (id_in ns a).
Proof. unfold id_in. destruct (area_id a); apply _. Defined.

(** [qs.filter(id__in=ids)] on the areas. *)
Definition filter_id_in (qs : list AggregationArea) (ids : list string) :
    Res (list AggregationArea) :=
  ns ← prep_ids ids;
  Ret (filter (id_in ns) qs).

(** [AggregationAreaViewSet.get_queryset]. *)
Definition AggregationAreaViewSet_get_queryset (db : DB)
    (query_params : ValueView.QueryDict) : Res (list AggregationArea) :=
  let qs := aggregationareas db in
  match QueryDict_get "ids" query_params with
  | Some ids =>
      if decide (ids = "") then Ret qs
      else filter_id_in qs (Urls.split "," ids)
  | None => Ret qs
  end.

(** [AggregationAreaValueViewSet.get_queryset]. *)
Definition AggregationAreaValueViewSet_get_queryset (db : DB)
    (query_params : ValueView.QueryDict) : Res (list AggregationArea) :=
  let qs := aggregationareas db in
  match QueryDict_get "ids" query_params with
  | Some ids =>
      if decide (ids = "") then Ret qs
      else
        let ids := Urls.split "," ids in
        filter_id_in qs ids
  | None => Ret qs
  end.

End AreaViews.
End AreaViews.

(** ** A small backend to run the code on

    Boxes with integer corners stand in for the geometries, integer counts
    for the aggregation values; the examples below evaluate the definitions
    above on it. *)

Module Fixture.

Record Box := {
  xmin : Z;
  ymin : Z;
  xmax : Z;
  ymax : Z;
}.

Definition box_intersects (a b : Box) : bool :=
  bool_decide (xmin a ≤ xmax b ∧ xmin b ≤ xmax a
               ∧ ymin a ≤ ymax b ∧ ymin b ≤ ymax a)%Z.

Definition box_intersection (a b : Box) : Box :=
  {| xmin := Z.max (xmin a) (xmin b); ymin := Z.max (ymin a) (ymin b);
     xmax := Z.min (xmax a) (xmax b); ymax := Z.min (ymax a) (ymax b) |}.

(** Corners snapped to the grid of the tolerance. *)
Definition box_simplify (g : Box) (tolerance : Z) (preserve_topology : bool) :
    Box :=
  let snap := λ v, (v / tolerance * tolerance)%Z in
  {| xmin := snap (xmin g); ymin := snap (ymin g);
     xmax := snap (xmax g); ymax := snap (ymax g) |}.

(** The tile (x, y) of zoom z in a world of side 1024. *)
Definition box_tile (x y z srid : Z) : Box :=
  let side := (1024 / 2 ^ z)%Z in
  {| xmin := x * side; ymin := y * side;
     xmax := (x + 1) * side; ymax := (y + 1) * side |}%Z.

Definition box_text (g : Box) : string :=
  "[" +:+ Py.str_int (xmin g) +:+ "," +:+ Py.str_int (ymin g) +:+ ","
  +:+ Py.str_int (xmax g) +:+ "," +:+ Py.str_int (ymax g) +:+ "]".

#[export] Instance boxes : Geometry := {|
  Geom := Box;
  OGRGeom := Box;
  SRS := unit;
  CT := unit;
  Tolerance := Z;
  WEB_MERCATOR_SRID := 3857;
  simplify := box_simplify;
  convert_to_multipolygon := λ g, Ret g;
  valid_reason := λ g,
    if bool_decide (xmin g ≤ xmax g ∧ ymin g ≤ ymax g)%Z
    then "Valid Geometry" else "Corners out of order";
  empty := λ g, bool_decide (xmin g = xmax g ∨ ymin g = ymax g);
  CoordTransform := λ srs srid,
    match srs with
    | Some _ => Ret ()
    | None => Raise GEOSException
    end;
  ogr_transform := λ g ct, Ret g;
  geos_2d := λ g, Ret g;
  tile_bounds_geom := box_tile;
  intersects := box_intersects;
  Intersection := box_intersection;
  Transform := λ g srid, g;
  geojson := box_text;
  wkb := λ g, [];
  mvt_encode := λ name features, repeat Byte.x01 (length features);
|}.

#[export] Instance counts : Raster := {|
  Count := Z;
  str_count := Py.str_int;
  value_count := λ layer_dict formula zoom geom acres grouping,
    if decide (formula = "") then Raise AggregatorError
    else Ret {[ "1" := 605%Z; "2" := 56%Z ]};
  to_int := λ s, if Py.is_digits s then Some (Py.int_digits s) else None;
|}.

#[export] Instance seconds : Clock := {|
  now := λ n, "2016-05-04 12:00:" +:+ Py.str_int (Z.of_nat n);
|}.

(** A group with two zoom ranges that overlap on the zooms 5 to 10: entry 1
    (layer 10, zooms 5 to 10) and entry 2 (layer 20, zooms 0 to 10). *)
Definition tiles_db : Models.DB := {|
  Models.aggregationlayers := [
    {| Models.al_id := 10; Models.al_name := Some "counties";
       Models.name_column := "NAME"; Models.min_zoom_level := 0;
       Models.max_zoom_level := 18; Models.simplification_tolerance := 4%Z;
       Models.parse_log := "" |};
    {| Models.al_id := 20; Models.al_name := Some "states";
       Models.name_column := "NAME"; Models.min_zoom_level := 0;
       Models.max_zoom_level := 18; Models.simplification_tolerance := 16%Z;
       Models.parse_log := "" |} ];
  Models.aggregationlayergroups :=
    [ {| Models.grp_id := 1; Models.grp_name := "admin" |} ];
  Models.zoomranges := [
    {| Models.zr_id := 1; Models.zr_aggregationlayergroup := 1;
       Models.zr_aggregationlayer := 10;
       Models.min_zoom := 5; Models.max_zoom := 10 |};
    {| Models.zr_id := 2; Models.zr_aggregationlayergroup := 1;
       Models.zr_aggregationlayer := 20;
       Models.min_zoom := 0; Models.max_zoom := 10 |} ];
  Models.aggregationareas := [
    {| Models.area_id := Some 1%Z; Models.area_name := Some "Coverall";
       Models.aggregationlayer := Some 10%Z;
       Models.geom := {| xmin := 0; ymin := 0; xmax := 1024; ymax := 1024 |};
       Models.geom_simplified := None |};
    {| Models.area_id := Some 2%Z; Models.area_name := Some "St Petersburg";
       Models.aggregationlayer := Some 10%Z;
       Models.geom := {| xmin := 600; ymin := 600; xmax := 700; ymax := 700 |};
       Models.geom_simplified := None |};
    {| Models.area_id := Some 3%Z; Models.area_name := Some "Tampa";
       Models.aggregationlayer := Some 10%Z;
       Models.geom := {| xmin := 10; ymin := 10; xmax := 90; ymax := 90 |};
       Models.geom_simplified := None |};
    {| Models.area_id := Some 4%Z; Models.area_name := Some "Florida";
       Models.aggregationlayer := Some 20%Z;
       Models.geom := {| xmin := 0; ymin := 0; xmax := 1024; ymax := 1024 |};
       Models.geom_simplified := None |} ];
  Models.aggregationarea_seq := 4;
  Models.valuecountresults := [];
  Models.valuecountresult_seq := 0;
  Models.valuecountresult_rasterlayers := [];
  Models.rasterlayers := {[ 1%Z; 2%Z ]};
|}.

(** St Petersburg with a changed geometry and a stale simplified one, as
    it is handed to [save], and as [save] stores it. *)
Definition st_petersburg_moved : Models.AggregationArea :=
  {| Models.area_id := Some 2%Z; Models.area_name := Some "St Petersburg";
     Models.aggregationlayer := Some 10%Z;
     Models.geom := {| xmin := 601; ymin := 603; xmax := 699; ymax := 702 |};
     Models.geom_simplified :=
       Some {| xmin := 0; ymin := 0; xmax := 1024; ymax := 1024 |} |}.

Definition st_petersburg_saved : Models.AggregationArea :=
  {| Models.area_id := Some 2%Z; Models.area_name := Some "St Petersburg";
     Models.aggregationlayer := Some 10%Z;
     Models.geom := {| xmin := 601; ymin := 603; xmax := 699; ymax := 702 |};
     Models.geom_simplified :=
       Some {| xmin := 600; ymin := 600; xmax := 696; ymax := 700 |} |}.

(** Two cached results for Coverall: [a*b] over raster layer 1, and [a]
    over raster layer 2 grouped by legend 7. *)
Definition result_1 : Models.ValueCountResult :=
  {| Models.vcr_id := Some 1%Z; Models.aggregationarea := 1;
     Models.formula := "a*b";
     Models.layer_names := {[ "a" := "1"; "b" := "1" ]};
     Models.zoom := 11; Models.units := ""; Models.grouping := "auto";
     Models.value := {[ "1" := "605"; "4" := "56" ]} |}.

Definition result_2 : Models.ValueCountResult :=
  {| Models.vcr_id := Some 2%Z; Models.aggregationarea := 1;
     Models.formula := "a";
     Models.layer_names := {[ "a" := "2" ]};
     Models.zoom := 11; Models.units := ""; Models.grouping := "7";
     Models.value := {[ "1" := "605"; "2" := "56" ]} |}.

(** A result not yet stored: [a*b] over the raster layers 1 and 2. *)
Definition result_new : Models.ValueCountResult :=
  {| Models.vcr_id := None; Models.aggregationarea := 1;
     Models.formula := "a*b";
     Models.layer_names := {[ "a" := "1"; "b" := "2" ]};
     Models.zoom := 11; Models.units := "Acres"; Models.grouping := "auto";
     Models.value := ∅ |}.

(** The two rows of [two_saves_db]. *)
Definition two_saves_row_1 : Models.ValueCountResult :=
  {| Models.vcr_id := Some 1%Z; Models.aggregationarea := 1;
     Models.formula := "a*b";
     Models.layer_names := {[ "a" := "1"; "b" := "2" ]};
     Models.zoom := 11; Models.units := "Acres"; Models.grouping := "auto";
     Models.value := {[ "1" := "605"; "2" := "56" ]} |}.

Definition two_saves_row_2 : Models.ValueCountResult :=
  {| Models.vcr_id := Some 2%Z; Models.aggregationarea := 1;
     Models.formula := "a";
     Models.layer_names := {[ "a" := "1" ]};
     Models.zoom := 11; Models.units := ""; Models.grouping := "auto";
     Models.value := {[ "1" := "605"; "2" := "56" ]} |}.

Definition results_db : Models.DB :=
  Models.set_results tiles_db [result_1; result_2] 2 [(1, 1); (2, 2)]%Z.

(** [result_new] as [save] stores it. *)
Definition result_new_saved : Models.ValueCountResult :=
  {| Models.vcr_id := Some 3%Z; Models.aggregationarea := 1;
     Models.formula := "a*b";
     Models.layer_names := {[ "a" := "1"; "b" := "2" ]};
     Models.zoom := 11; Models.units := "Acres"; Models.grouping := "auto";
     Models.value := {[ "1" := "605"; "2" := "56" ]} |}.

(** The same request as [result_new], its aliases written in the other
    order. *)
Definition result_new_reordered : Models.ValueCountResult :=
  {| Models.vcr_id := None; Models.aggregationarea := 1;
     Models.formula := "a*b";
     Models.layer_names := {[ "b" := "2"; "a" := "1" ]};
     Models.zoom := 11; Models.units := "Acres"; Models.grouping := "auto";
     Models.value := ∅ |}.

(** Another request for the same area: [a] over raster layer 1. *)
Definition result_other : Models.ValueCountResult :=
  {| Models.vcr_id := None; Models.aggregationarea := 1;
     Models.formula := "a";
     Models.layer_names := {[ "a" := "1" ]};
     Models.zoom := 11; Models.units := ""; Models.grouping := "auto";
     Models.value := ∅ |}.

(** [tiles_db] after [result_new] and then [result_other] were saved. *)
Definition two_saves_db : Models.DB :=
  (Models.ValueCountResult_save
     (Models.ValueCountResult_save tiles_db result_new).1 result_other).1.


(** The keyword arguments for the tile (80, 80) of zoom 7, the box from 640
    to 648: as JSON, as a vector tile, and with a suffix the route does not
    know. *)
Definition tile_json : Urls.TilePath :=
  {| Urls.layergroup := "1"; Urls.z := "7"; Urls.x := "80"; Urls.y := "80";
     Urls.response_format := ".json" |}.

Definition tile_pbf : Urls.TilePath :=
  {| Urls.layergroup := "1"; Urls.z := "7"; Urls.x := "80"; Urls.y := "80";
     Urls.response_format := ".pbf" |}.


(** A statistics API that answers every path under [api/] and no other. *)
Definition statistics_api (path : string) : option (Res Views.HttpResponse) :=
  match Urls.strip_prefix "api/" path with
  | Some _ =>
      Some (Ret {| Views.content := Views.Text "{}";
                   Views.content_type := "application/json" |})
  | None => None
  end.


(** The layer 10 as an instance, and three shapefiles for it: one whose
    layer has three features (the second with its corners out of order, the
    third without a readable name), one without the name column, and one
    without a projection. *)
Definition layer_10 : Models.AggregationLayer :=
  {| Models.al_id := 10; Models.al_name := Some "counties";
     Models.name_column := "NAME"; Models.min_zoom_level := 0;
     Models.max_zoom_level := 18; Models.simplification_tolerance := 4%Z;
     Models.parse_log := "" |}.

Definition feature (fid_ : Z) (g : Box) (name : Res (option string)) :
    Parser.OGRFeature :=
  {| Parser.fid := fid_; Parser.feat_geom := Ret g;
     Parser.feat_get := λ _, name |}.

Definition shapefile_good : Parser.Shapefile :=
  Parser.Layer
    {| Parser.fields := ["Name"; "POP"]; Parser.srs := Some ();
       Parser.features := [
         feature 0 {| xmin := 0; ymin := 0; xmax := 50; ymax := 50 |}
           (Ret (Some "Pinellas"));
         feature 1 {| xmin := 9; ymin := 0; xmax := 5; ymax := 50 |}
           (Ret (Some "Twisted"));
         feature 2 {| xmin := 50; ymin := 0; xmax := 90; ymax := 50 |}
           (Raise ValueError) ] |}.



Definition repr_fields (l : list string) : string :=
  "[" +:+ Py.join ", " l +:+ "]".

(** [tiles_db] with the sequence of the area ids one behind the ids in
    use, and a new area for layer 10; an area without a layer. *)
Definition stale_seq_db : Models.DB :=
  Models.set_areas tiles_db (Models.aggregationareas tiles_db) 3.

Definition area_new : Models.AggregationArea :=
  {| Models.area_id := None; Models.area_name := Some "Clearwater";
     Models.aggregationlayer := Some 10%Z;
     Models.geom := {| xmin := 100; ymin := 100; xmax := 200; ymax := 200 |};
     Models.geom_simplified := None |}.

Definition area_no_layer : Models.AggregationArea :=
  {| Models.area_id := None; Models.area_name := Some "Nowhere";
     Models.aggregationlayer := None;
     Models.geom := {| xmin := 100; ymin := 100; xmax := 200; ymax := 200 |};
     Models.geom_simplified := None |}.

(** The layer of [shapefile_good]. *)
Definition ogr_layer_good : Parser.OGRLayer :=
  match shapefile_good with
  | Parser.Layer lyr => lyr
  | _ => {| Parser.fields := []; Parser.srs := None; Parser.features := [] |}
  end.

(** Coverall as [tiles_db] holds it, and Pinellas as the run on
    [shapefile_good] stores it. *)
Definition coverall : Models.AggregationArea :=
  {| Models.area_id := Some 1%Z; Models.area_name := Some "Coverall";
     Models.aggregationlayer := Some 10%Z;
     Models.geom := {| xmin := 0; ymin := 0; xmax := 1024; ymax := 1024 |};
     Models.geom_simplified := None |}.

Definition pinellas_stored : Models.AggregationArea :=
  {| Models.area_id := Some 5%Z; Models.area_name := Some "Pinellas";
     Models.aggregationlayer := Some 10%Z;
     Models.geom := {| xmin := 0; ymin := 0; xmax := 50; ymax := 50 |};
     Models.geom_simplified :=
       Some {| xmin := 0; ymin := 0; xmax := 48; ymax := 48 |} |}.

End Fixture.


(** * Properties *)

Lemma NoDup_fmap_elem_inj {A B} (f : A → B) (l : list A) (a b : A) :
  NoDup (f <$> l) → a ∈ l → b ∈ l → f a = f b → a = b.
Proof.
  induction l as [|c l IH]; csimpl; [by intros _ ?%elem_of_nil|].
  intros [Hnotin Hnodup]%NoDup_cons Ha Hb Heq.
  apply elem_of_cons in Ha as [->|Ha], Hb as [->|Hb]; auto.
  - destruct Hnotin. rewrite Heq. by apply list_elem_of_fmap_2.
  - destruct Hnotin. rewrite <- Heq. by apply list_elem_of_fmap_2.
Qed.

(** ** The statistics endpoint: required query parameters *)

Section ValueViewFacts.
Import ValueView.
Context {State Response : Type}.
Variable super_initial : QueryDict → option DRFError.
Variable handler : State → QueryDict → State * Res Response.

Lemma initial_formula_absent GET :
  contains "formula" GET = false →
  initial super_initial GET
  = Raise (MissingQueryParameter "Missing query parameter: formula").
Proof. intros Hf. unfold initial. by rewrite Hf. Qed.

Lemma initial_layers_absent GET :
  contains "formula" GET = true → contains "layers" GET = false →
  initial super_initial GET
  = Raise (MissingQueryParameter "Missing query parameter: layers").
Proof. intros Hf Hl. unfold initial. by rewrite Hf, Hl. Qed.

Lemma initial_both_present GET :
  contains "formula" GET = true → contains "layers" GET = true →
  initial super_initial GET
  = match super_initial GET with
    | Some e => Raise (APIError e)
    | None => Ret ()
    end.
Proof. intros Hf Hl. unfold initial. by rewrite Hf, Hl. Qed.

(** C8. When [formula] or [layers] is absent from the query, the request is
    answered with a [MissingQueryParameter] error (status 500) whose detail
    names an absent field, the state is untouched and the handler, and with
    it the aggregation, never runs.  When both are present [initial] raises
    no [MissingQueryParameter], and the handler runs as soon as the
    framework's own checks pass. *)
Theorem missing_query_parameter (st : State) (GET : QueryDict) :
  ((contains "formula" GET = false ∨ contains "layers" GET = false) →
   ∃ field,
     (field = "formula" ∨ field = "layers")
     ∧ contains field GET = false
     ∧ dispatch super_initial handler st GET
       = (st, Raise (MissingQueryParameter
                       ("Missing query parameter: " +:+ field)))
     ∧ status_code (MissingQueryParameter
                      ("Missing query parameter: " +:+ field)) = 500%Z)
  ∧ (contains "formula" GET = true → contains "layers" GET = true →
     (∀ detail, initial super_initial GET ≠ Raise (MissingQueryParameter detail))
     ∧ (super_initial GET = None →
        dispatch super_initial handler st GET = handler st GET)).
Proof.
  split.
  - intros Habsent. destruct (contains "formula" GET) eqn:Hf.
    + destruct Habsent as [|Hl]; [done|].
      exists "layers". unfold dispatch.
      rewrite (initial_layers_absent _ Hf Hl). auto.
    + exists "formula". unfold dispatch.
      rewrite (initial_formula_absent _ Hf). auto.
  - intros Hf Hl. split.
    + intros detail. rewrite (initial_both_present _ Hf Hl).
      by destruct (super_initial GET).
    + intros Hsuper. unfold dispatch.
      by rewrite (initial_both_present _ Hf Hl), Hsuper.
Qed.

End ValueViewFacts.

(** A request without [formula], and one with both parameters, against a
    handler that counts the aggregations it computes. *)
Lemma missing_query_parameter_witness :
  (∃ field,
     (field = "formula" ∨ field = "layers")
     ∧ ValueView.contains field [("layers", "a=1"); ("zoom", "11")] = false
     ∧ ValueView.dispatch (λ _, None) (λ n _, (S n, Ret "value"))
         0%nat [("layers", "a=1"); ("zoom", "11")]
       = (0%nat, Raise (MissingQueryParameter
                          ("Missing query parameter: " +:+ field)))
     ∧ status_code (MissingQueryParameter
                      ("Missing query parameter: " +:+ field)) = 500%Z)
  ∧ ValueView.dispatch (λ _, None) (λ n _, (S n, Ret "value"))
      0%nat [("layers", "a=1"); ("formula", "a")]
    = (1%nat, Ret "value").
Proof.
  split.
  - apply (missing_query_parameter (λ _, None) (λ n _, (S n, Ret "value"))
             0%nat [("layers", "a=1"); ("zoom", "11")]).
    left. reflexivity.
  - apply (missing_query_parameter (λ _, None) (λ n _, (S n, Ret "value"))
             0%nat [("layers", "a=1"); ("formula", "a")]);
      reflexivity.
Defined.


(** ** Layer resolution for a tile *)

Section FirstFacts.
Import Views.
Context {A : Type} (pk : A → Z).

#[local] Instance pk_le_trans : Transitive (pk_le pk).
Proof. unfold pk_le. intros a b c. lia. Qed.

#[local] Instance pk_le_total : Total (pk_le pk).
Proof. unfold pk_le. intros a b. lia. Qed.

Lemma first_Some (qs : list A) (r : A) :
  Views.first pk qs = Some r →
  r ∈ qs ∧ ∀ r', r' ∈ qs → (pk r ≤ pk r')%Z.
Proof.
  unfold Views.first. intros Hhead.
  pose proof (merge_sort_Permutation (pk_le pk) qs) as Hperm.
  pose proof (StronglySorted_merge_sort (pk_le pk) qs) as Hsorted.
  destruct (merge_sort (pk_le pk) qs) as [|r0 rest]; simplify_eq/=.
  split.
  - rewrite <- Hperm. left.
  - intros r'. rewrite <- Hperm. intros [->|Hin]%elem_of_cons; [lia|].
    apply StronglySorted_inv in Hsorted as [_ Hall].
    rewrite Forall_forall in Hall. by apply Hall.
Qed.

Lemma first_None (qs : list A) : Views.first pk qs = None ↔ qs = [].
Proof.
  unfold Views.first.
  pose proof (merge_sort_Permutation (pk_le pk) qs) as Hperm.
  split.
  - intros Hhead. destruct (merge_sort (pk_le pk) qs); [|done].
    by apply Permutation_nil_l in Hperm.
  - by intros ->.
Qed.

(** With unique primary keys, [first] does not depend on the order in which
    the rows are stored. *)
Lemma first_Permutation (qs qs' : list A) :
  NoDup (pk <$> qs) → qs ≡ₚ qs' → Views.first pk qs = Views.first pk qs'.
Proof.
  intros Hnodup Hperm. unfold Views.first. f_equal.
  apply (StronglySorted_unique_strong (pk_le pk)).
  - intros a b Ha Hb Hab Hba. unfold pk_le in *.
    rewrite merge_sort_Permutation in Ha, Hb. rewrite <- Hperm in Hb.
    apply (NoDup_fmap_elem_inj pk qs); auto. lia.
  - apply StronglySorted_merge_sort; apply _.
  - apply StronglySorted_merge_sort; apply _.
  - by rewrite !merge_sort_Permutation.
Qed.

End FirstFacts.

Section LayerResolution.
Import Models Views.
Context `{Raster}.

(** C5, as the code has it.  For a layer group that exists and a zoom z, the
    entry selected belongs to the group and has min_zoom ≤ z ≤ max_zoom; among
    the entries of the group that cover z it is the one with the lowest
    primary key; an entry is selected whenever one covers z, and when none
    does the request fails with Http404; the choice does not depend on the
    order in which the rows are stored. *)
Theorem layer_resolution_lowest_pk (db : DB) (layergroup : string)
    (grp : AggregationLayerGroup) (z : Z) :
  get_group db layergroup = Ret grp →
  (∀ zr, select_layerzoomrange db layergroup z = Ret zr →
     zr ∈ zoomranges db
     ∧ zr_aggregationlayergroup zr = grp_id grp
     ∧ (min_zoom zr ≤ z ≤ max_zoom zr)%Z
     ∧ ∀ zr', zr' ∈ zoomranges db →
         zr_aggregationlayergroup zr' = grp_id grp →
         (min_zoom zr' ≤ z ≤ max_zoom zr')%Z →
         (zr_id zr ≤ zr_id zr')%Z)
  ∧ ((∃ zr', zr' ∈ zoomranges db
             ∧ zr_aggregationlayergroup zr' = grp_id grp
             ∧ (min_zoom zr' ≤ z ≤ max_zoom zr')%Z) →
     ∃ zr, select_layerzoomrange db layergroup z = Ret zr)
  ∧ ((¬ ∃ zr', zr' ∈ zoomranges db
               ∧ zr_aggregationlayergroup zr' = grp_id grp
               ∧ (min_zoom zr' ≤ z ≤ max_zoom zr')%Z) →
     select_layerzoomrange db layergroup z
     = Raise (Http404 "No layer found for this zoom level"))
  ∧ (∀ db', get_group db' layergroup = Ret grp →
       NoDup (zr_id <$> zoomranges db) →
       zoomranges db' ≡ₚ zoomranges db →
       select_layerzoomrange db' layergroup z
       = select_layerzoomrange db layergroup z).
Proof.
  intros Hgrp. unfold select_layerzoomrange. rewrite Hgrp. simpl.
  split; [|split; [|split]].
  - intros zr Hsel.
    destruct (first zr_id (zoomrange_set_filter db grp z)) as [zr0|] eqn:Hfirst;
      simplify_eq.
    apply first_Some in Hfirst as [Hin Hmin].
    unfold zoomrange_set_filter in Hin, Hmin.
    apply list_elem_of_filter in Hin as [(Hg & Hlo & Hhi) Hin].
    repeat split; auto.
    intros zr' Hin' Hg' [Hlo' Hhi']. apply Hmin.
    apply list_elem_of_filter. auto.
  - intros (zr' & Hin' & Hg' & Hlo' & Hhi').
    destruct (first zr_id (zoomrange_set_filter db grp z)) as [zr0|] eqn:Hfirst;
      [by eexists|].
    apply first_None in Hfirst.
    assert (zr' ∈ zoomrange_set_filter db grp z) as Hin.
    { apply list_elem_of_filter. auto. }
    rewrite Hfirst in Hin. by apply elem_of_nil in Hin.
  - intros Hnone.
    destruct (first zr_id (zoomrange_set_filter db grp z)) as [zr0|] eqn:Hfirst;
      [|done].
    apply first_Some in Hfirst as [Hin _].
    apply list_elem_of_filter in Hin as [(Hg & Hlo & Hhi) Hin].
    destruct Hnone. exists zr0. auto.
  - intros db' Hgrp' Hnodup Hperm. rewrite Hgrp'. simpl.
    assert (first zr_id (zoomrange_set_filter db' grp z)
            = first zr_id (zoomrange_set_filter db grp z)) as ->; [|done].
    symmetry. apply first_Permutation.
    + eapply sublist_NoDup; [exact Hnodup|].
      apply fmap_sublist, sublist_filter.
    + unfold zoomrange_set_filter. by rewrite Hperm.
Qed.

End LayerResolution.

Import Fixture.

Example select_layerzoomrange_overlap :
  Views.select_layerzoomrange Fixture.tiles_db "1" 7
  = Ret {| Models.zr_id := 1; Models.zr_aggregationlayergroup := 1;
           Models.zr_aggregationlayer := 10;
           Models.min_zoom := 5; Models.max_zoom := 10 |}.
Proof. reflexivity. Qed.

(** Group 1 at zoom 7: both entries cover the zoom and entry 1 is taken;
    at zoom 11 no entry covers the zoom. *)
Lemma layer_resolution_lowest_pk_witness :
  (∃ zr, Views.select_layerzoomrange Fixture.tiles_db "1" 7 = Ret zr
         ∧ Models.zr_id zr = 1%Z
         ∧ (Models.min_zoom zr ≤ 7 ≤ Models.max_zoom zr)%Z)
  ∧ Views.select_layerzoomrange Fixture.tiles_db "1" 11
    = Raise (Http404 "No layer found for this zoom level").
Proof.
  assert (Views.get_group Fixture.tiles_db "1"
          = Ret {| Models.grp_id := 1; Models.grp_name := "admin" |}) as Hgrp
    by reflexivity.
  split.
  - destruct (layer_resolution_lowest_pk Fixture.tiles_db "1" _ 7 Hgrp)
      as (Hsel & Hsome & _).
    assert (∃ zr', zr' ∈ Models.zoomranges Fixture.tiles_db
                   ∧ Models.zr_aggregationlayergroup zr' = 1%Z
                   ∧ (Models.min_zoom zr' ≤ 7 ≤ Models.max_zoom zr')%Z) as Hex.
    { eexists. split; [right; left|]. simpl. split; [done|lia]. }
    destruct (Hsome Hex) as [zr Hzr].
    exists zr. destruct (Hsel zr Hzr) as (_ & _ & Hcover & Hmin).
    split; [done|]. split; [|done].
    rewrite select_layerzoomrange_overlap in Hzr. by simplify_eq.
  - destruct (layer_resolution_lowest_pk Fixture.tiles_db "1" _ 11 Hgrp)
      as (_ & _ & Hnone & _).
    apply Hnone. intros (zr' & Hin & _ & Hlo & Hhi).
    repeat (apply elem_of_cons in Hin as [->|Hin]; [simpl in *; lia|]).
    by apply elem_of_nil in Hin.
Defined.

(** C5 as the specification words it fails: at zoom 7 the entry selected
    for group 1 starts at zoom 5, while entry 2 of the group covers zoom 7
    and starts at zoom 0. *)
Lemma lowest_zoom_start_first_fails :
  ¬ (∀ zr zr',
       Views.select_layerzoomrange Fixture.tiles_db "1" 7 = Ret zr →
       zr' ∈ Models.zoomranges Fixture.tiles_db →
       Models.zr_aggregationlayergroup zr' = 1%Z →
       (Models.min_zoom zr' ≤ 7 ≤ Models.max_zoom zr')%Z →
       (Models.min_zoom zr ≤ Models.min_zoom zr')%Z).
Proof.
  intros Hclaim.
  specialize (Hclaim _
    {| Models.zr_id := 2; Models.zr_aggregationlayergroup := 1;
       Models.zr_aggregationlayer := 20;
       Models.min_zoom := 0; Models.max_zoom := 10 |}
    select_layerzoomrange_overlap).
  simpl in Hclaim.
  assert (5 ≤ 0)%Z; [|lia].
  apply Hclaim; [|done|lia].
  right. left.
Qed.

(** ** Tile rendering *)

Section TileFacts.
Import Models Urls Views.
Context `{Raster}.
Variable router_urls : string → option (Res HttpResponse).









End TileFacts.

(** The tile (80, 80) of zoom 7 meets Coverall and St Petersburg, not
    Tampa, and not Florida, which is of the other layer. *)
Example tile_queryset_80_80_7 :
  Models.area_name
  <$> (Views.tile_queryset tiles_db 10 (Views.tile_bounds tile_json)).*1
  = [Some "Coverall"; Some "St Petersburg"]
  ∧ (Views.tile_queryset tiles_db 10 (Views.tile_bounds tile_json)).*2
    = [ {| xmin := 640; ymin := 640; xmax := 648; ymax := 648 |};
        {| xmin := 640; ymin := 640; xmax := 648; ymax := 648 |} ].
Proof. split; reflexivity. Qed.

(** What the route makes of three paths to that tile, and of two paths
    that are not tile paths. *)
Example vector_tiles_resolve_paths :
  Urls.vector_tiles_resolve "vtiles/1/7/80/80.json" = Some tile_json
  ∧ Urls.vector_tiles_resolve "vtiles/1/7/80/80.pbf" = Some tile_pbf
  ∧ Urls.vector_tiles_resolve "vtiles/1/7/80/80.png" = None
  ∧ Urls.vector_tiles_resolve "vtiles/1/7/80/80" = None
  ∧ Urls.vector_tiles_resolve "vtiles/1/7/80/x80.json" = None
  ∧ Urls.vector_tiles_resolve "tiles/1/7/80/80.json" = None
  ∧ Urls.vector_tiles_resolve "vtiles/1/7/80/80/80.json" = None.
Proof. repeat split; reflexivity. Qed.



(** ** Saving an aggregation area *)

Section AreaFacts.
Import Models.
Context `{Raster}.

Lemma elem_of_update_rows {A} (same : A → Prop) `{∀ r, Decision (same r)}
    (new : A) (rows : list A) (r : A) :
  r ∈ update_rows same new rows ↔
  (r = new ∧ Exists same rows) ∨ (r ∈ rows ∧ ¬ same r).
Proof.
  unfold update_rows. rewrite list_elem_of_fmap, Exists_exists. split.
  - intros (r0 & -> & Hin). case_decide; eauto.
  - intros [[-> (r0 & Hin & Hsame)]|[Hin Hnot]].
    + exists r0. by rewrite decide_True.
    + exists r. by rewrite decide_False.
Qed.

Lemma Model_save_area_stored (db db' : DB) (self saved : AggregationArea) :
  Model_save_area db self = (db', Ret saved) →
  saved ∈ aggregationareas db'
  ∧ area_name saved = area_name self
  ∧ aggregationlayer saved = aggregationlayer self
  ∧ geom saved = geom self
  ∧ geom_simplified saved = geom_simplified self
  ∧ (∀ other, other ∈ aggregationareas db →
       area_id other ≠ area_id saved → other ∈ aggregationareas db').
Proof.
  unfold Model_save_area. intros Hsave.
  destruct (area_id self) as [i|] eqn:Hid; repeat case_decide; simplify_eq/=.
  - repeat split; auto.
    + apply elem_of_update_rows. auto.
    + intros other Hin Hne. apply elem_of_update_rows. right.
      split; [done|]. congruence.
  - repeat split; auto.
    + apply elem_of_app. right. by apply list_elem_of_singleton.
    + intros. apply elem_of_app. by left.
  - repeat split; auto.
    + apply elem_of_app. right. by apply list_elem_of_singleton.
    + intros. apply elem_of_app. by left.
Qed.

(** C4. When [AggregationArea.save] returns, the row it stored carries the
    area's own geometry and, as [geom_simplified], the multipolygon form of
    that geometry simplified with topology preserved at the tolerance of
    the area's layer.  The value [geom_simplified] had before the save plays
    no part (a stale or copied value is overwritten), and the rows of the
    other areas stay as they were. *)
Theorem area_save_rederives_geom_simplified (db db' : DB)
    (self saved : AggregationArea) :
  AggregationArea_save db self = (db', Ret saved) →
  ∃ layer_id lyr g,
    aggregationlayer self = Some layer_id
    ∧ get_layer db layer_id = Some lyr
    ∧ convert_to_multipolygon
        (simplify (geom self) (simplification_tolerance lyr) true) = Ret g
    ∧ saved ∈ aggregationareas db'
    ∧ geom saved = geom self
    ∧ geom_simplified saved = Some g
    ∧ (∀ stale,
         AggregationArea_save db
           {| area_id := area_id self; area_name := area_name self;
              aggregationlayer := aggregationlayer self; geom := geom self;
              geom_simplified := stale |}
         = (db', Ret saved))
    ∧ (∀ other, other ∈ aggregationareas db →
         area_id other ≠ area_id saved → other ∈ aggregationareas db').
Proof.
  unfold AggregationArea_save. intros Hsave.
  destruct (aggregationlayer self) as [layer_id|] eqn:Hlayer; [|done].
  destruct (get_layer db layer_id) as [lyr|] eqn:Hget; [|done].
  destruct (convert_to_multipolygon _) as [g|] eqn:Hconvert; [|done].
  exists layer_id, lyr, g. repeat (split; [done|]).
  destruct (Model_save_area_stored _ _ _ _ Hsave)
    as (Hin & _ & _ & Hgeom & Hsimplified & Hframe).
  repeat (split; [done|]). split; [|done].
  intros stale. simpl. rewrite Hget, Hconvert.
  unfold with_geom_simplified in *. simpl. by rewrite <- Hlayer.
Qed.

End AreaFacts.

(** St Petersburg (area 2, layer 10 with tolerance 4) saved with a changed
    geometry and a stale [geom_simplified]: the corners are snapped
    anew. *)
Lemma area_save_rederives_geom_simplified_witness :
  Models.AggregationArea_save tiles_db st_petersburg_moved
  = ((Models.AggregationArea_save tiles_db st_petersburg_moved).1,
     Ret st_petersburg_saved)
  ∧ st_petersburg_saved
    ∈ Models.aggregationareas
        (Models.AggregationArea_save tiles_db st_petersburg_moved).1
  ∧ Models.geom_simplified st_petersburg_saved
    = Some {| xmin := 600; ymin := 600; xmax := 696; ymax := 700 |}.
Proof.
  assert (Models.AggregationArea_save tiles_db st_petersburg_moved
          = ((Models.AggregationArea_save tiles_db st_petersburg_moved).1,
             Ret st_petersburg_saved)) as Hsave
    by reflexivity.
  split; [exact Hsave|].
  destruct (area_save_rederives_geom_simplified _ _ _ _ Hsave)
    as (layer_id & lyr & g & _ & _ & _ & Hin & _).
  split; [exact Hin|reflexivity].
Defined.

(** ** The cached results: invalidation *)

Section InvalidationFacts.
Import Models.
Context `{Raster}.

Lemma delete_results_rows (db : DB) (sel : ValueCountResult → Prop)
    `{∀ r, Decision (sel r)} (r : ValueCountResult) :
  r ∈ valuecountresults (delete_results db sel) ↔
  r ∈ valuecountresults db ∧ ¬ sel r.
Proof. unfold delete_results. simpl. rewrite list_elem_of_filter. tauto. Qed.

Lemma delete_results_depends_on (db : DB) (sel : ValueCountResult → Prop)
    `{∀ r, Decision (sel r)} (r : ValueCountResult) (lyr : Z) :
  NoDup (vcr_id <$> valuecountresults db) →
  r ∈ valuecountresults (delete_results db sel) →
  depends_on (delete_results db sel) r lyr ↔ depends_on db r lyr.
Proof.
  intros Hnodup [Hin Hkeep]%delete_results_rows.
  unfold depends_on, delete_results. simpl.
  split; intros (pk & Hpk & Hthrough); exists pk; split; try done.
  - by apply list_elem_of_filter in Hthrough as [_ ?].
  - apply list_elem_of_filter. split; [|done]. simpl.
    intros (r' & Hpk' & [Hsel Hin']%list_elem_of_filter)%list_elem_of_fmap.
    apply Hkeep.
    rewrite (NoDup_fmap_elem_inj vcr_id _ r r' Hnodup); auto. congruence.
Qed.

(** C2. After the receiver of the raster-layer-changed signal ran for
    layer [lyr], the stored results are those that did not depend on [lyr],
    each as it was and with the dependencies it had; after the receiver of
    the legend-saved signal ran for the legend with id [legend], the stored
    results are those whose grouping is not the text of that id, each as it
    was and with the dependencies it had.  Neither touches the areas. *)
Theorem receivers_delete_dependent_results (db : DB) :
  NoDup (vcr_id <$> valuecountresults db) →
  (∀ lyr r,
     r ∈ valuecountresults
           (remove_aggregation_results_after_rasterlayer_change db lyr) ↔
     r ∈ valuecountresults db ∧ ¬ depends_on db r lyr)
  ∧ (∀ lyr r lyr',
       r ∈ valuecountresults
             (remove_aggregation_results_after_rasterlayer_change db lyr) →
       depends_on (remove_aggregation_results_after_rasterlayer_change db lyr)
         r lyr'
       ↔ depends_on db r lyr')
  ∧ (∀ legend r,
       r ∈ valuecountresults
             (remove_aggregation_results_after_legend_change db legend) ↔
       r ∈ valuecountresults db ∧ grouping r ≠ Py.str_int legend)
  ∧ (∀ legend r lyr',
       r ∈ valuecountresults
             (remove_aggregation_results_after_legend_change db legend) →
       depends_on (remove_aggregation_results_after_legend_change db legend)
         r lyr'
       ↔ depends_on db r lyr')
  ∧ (∀ lyr legend,
       aggregationareas
         (remove_aggregation_results_after_rasterlayer_change db lyr)
       = aggregationareas db
       ∧ aggregationareas
           (remove_aggregation_results_after_legend_change db legend)
         = aggregationareas db).
Proof.
  intros Hnodup. split; [|split; [|split; [|split]]].
  - intros lyr r. apply delete_results_rows.
  - intros lyr r lyr' Hin. by apply delete_results_depends_on.
  - intros legend r. apply delete_results_rows.
  - intros legend r lyr' Hin. by apply delete_results_depends_on.
  - done.
Qed.

End InvalidationFacts.

(** Raster layer 1 changes: result 1 goes, result 2 stays with its
    dependency on layer 2.  Legend 7 is saved: result 2 goes, result 1
    stays. *)
Lemma receivers_delete_dependent_results_witness :
  Models.valuecountresults
    (Models.remove_aggregation_results_after_rasterlayer_change results_db 1)
  = [result_2]
  ∧ (Models.depends_on
       (Models.remove_aggregation_results_after_rasterlayer_change results_db 1)
       result_2 2
     ↔ Models.depends_on results_db result_2 2)
  ∧ Models.valuecountresults
      (Models.remove_aggregation_results_after_legend_change results_db 7)
    = [result_1].
Proof.
  assert (NoDup (Models.vcr_id <$> Models.valuecountresults results_db))
    as Hnodup.
  { apply (bool_decide_unpack _). reflexivity. }
  destruct (receivers_delete_dependent_results results_db Hnodup)
    as (_ & Hdeps & _).
  split; [reflexivity|]. split; [|reflexivity].
  apply Hdeps. left.
Defined.

(** ** The cached results: saving *)

Section ResultSaveFacts.
Import Models.
Context `{Raster}.

Lemma rasterlayers_add_through (db : DB) (pk lyr : Z) (p : Z * Z) :
  p ∈ valuecountresult_rasterlayers (rasterlayers_add db pk lyr) ↔
  p ∈ valuecountresult_rasterlayers db ∨ p = (pk, lyr).
Proof.
  unfold rasterlayers_add. case_decide; simpl.
  - split; [auto|]. by intros [?| ->].
  - by rewrite elem_of_app, list_elem_of_singleton.
Qed.

Lemma rasterlayers_add_frame (db : DB) (pk lyr : Z) :
  valuecountresults (rasterlayers_add db pk lyr) = valuecountresults db
  ∧ valuecountresult_seq (rasterlayers_add db pk lyr) = valuecountresult_seq db
  ∧ rasterlayers (rasterlayers_add db pk lyr) = rasterlayers db
  ∧ aggregationareas (rasterlayers_add db pk lyr) = aggregationareas db.
Proof. unfold rasterlayers_add. by case_decide. Qed.

Lemma add_rasterlayers_frame (db db' : DB) (pk : Z) (layer_ids : list string)
    (res : Res unit) :
  add_rasterlayers db pk layer_ids = (db', res) →
  valuecountresults db' = valuecountresults db
  ∧ valuecountresult_seq db' = valuecountresult_seq db
  ∧ rasterlayers db' = rasterlayers db
  ∧ aggregationareas db' = aggregationareas db
  ∧ ∀ p, p ∈ valuecountresult_rasterlayers db →
         p ∈ valuecountresult_rasterlayers db'.
Proof.
  revert db. induction layer_ids as [|layer_id rest IH]; intros db Hadd;
    simplify_eq/=; [done|].
  destruct (RasterLayer_get db layer_id) as [lyr|e]; simplify_eq/=; [|done].
  destruct (IH _ Hadd) as (Hrows & Hseq & Hlayers & Hareas & Hthrough).
  destruct (rasterlayers_add_frame db pk lyr) as (Hrows0 & Hseq0 & Hlayers0 & Hareas0).
  rewrite Hrows, Hseq, Hlayers, Hareas. repeat (split; [done|]).
  intros p Hp. apply Hthrough, rasterlayers_add_through. auto.
Qed.

Lemma add_rasterlayers_added (db db' : DB) (pk : Z) (layer_ids : list string) :
  add_rasterlayers db pk layer_ids = (db', Ret ()) →
  ∀ layer_id, layer_id ∈ layer_ids →
    ∃ lyr, to_int layer_id = Some lyr ∧ lyr ∈ rasterlayers db
           ∧ (pk, lyr) ∈ valuecountresult_rasterlayers db'.
Proof.
  revert db. induction layer_ids as [|layer_id0 rest IH]; intros db Hadd;
    [by intros ? ?%elem_of_nil|].
  simpl in Hadd. unfold RasterLayer_get in Hadd.
  destruct (to_int layer_id0) as [lyr0|] eqn:Hint; [|done].
  case_decide as Hexists; [|done].
  intros layer_id [->|Hin]%elem_of_cons.
  - exists lyr0. repeat (split; [done|]).
    destruct (add_rasterlayers_frame _ _ _ _ _ Hadd) as (_ & _ & _ & _ & Hthrough).
    apply Hthrough, rasterlayers_add_through. auto.
  - destruct (IH _ Hadd layer_id Hin) as (lyr & ? & Hlyr & ?).
    exists lyr. repeat (split; [done|]).
    by destruct (rasterlayers_add_frame db pk lyr0) as (_ & _ & <- & _).
Qed.

Lemma Model_save_result_stored (db db' : DB) (self saved : ValueCountResult) :
  Model_save_result db self = (db', Ret saved) →
  saved ∈ valuecountresults db'
  ∧ is_Some (vcr_id saved)
  ∧ unique_together saved = unique_together self
  ∧ value saved = value self
  ∧ valuecountresult_rasterlayers db' = valuecountresult_rasterlayers db
  ∧ rasterlayers db' = rasterlayers db.
Proof.
  unfold Model_save_result. intros Hsave.
  destruct (vcr_id self) as [i|] eqn:Hid; repeat case_decide; simplify_eq/=;
    repeat split; auto.
  - apply elem_of_update_rows. auto.
  - apply elem_of_app. right. apply list_elem_of_singleton. done.
  - apply elem_of_app. right. apply list_elem_of_singleton. done.
Qed.

Lemma elem_of_values (m : gmap string string) (v : string) :
  v ∈ values m ↔ ∃ k, m !! k = Some v.
Proof.
  unfold values. rewrite list_elem_of_fmap. split.
  - intros ([k v'] & -> & Hin%elem_of_map_to_list). eauto.
  - intros [k Hk]. exists (k, v). by rewrite elem_of_map_to_list.
Qed.

(** C3. When [ValueCountResult.save] returns, the row it stored holds as
    value the aggregation result with every count turned into its text,
    under the keys of the aggregation result, and for every raster layer id
    among the values of the layer-alias mapping the raster layer of that id
    exists and is one of the dependencies recorded for the result. *)
Theorem result_save_value_and_dependencies (db db' : DB)
    (self saved : ValueCountResult) :
  ValueCountResult_save db self = (db', Ret saved) →
  ∃ area aggregation_result,
    get_area db (aggregationarea self) = Some area
    ∧ value_count (layer_names self) (formula self) (zoom self) (geom area)
        (bool_decide (Py.lower (units self) = "acres")) (grouping self)
      = Ret aggregation_result
    ∧ saved ∈ valuecountresults db'
    ∧ unique_together saved = unique_together self
    ∧ value saved = str_count <$> aggregation_result
    ∧ (∀ key, value saved !! key = str_count <$> aggregation_result !! key)
    ∧ (∀ alias layer_id,
         layer_names self !! alias = Some layer_id →
         ∃ lyr, to_int layer_id = Some lyr
                ∧ lyr ∈ rasterlayers db
                ∧ depends_on db' saved lyr).
Proof.
  unfold ValueCountResult_save. intros Hsave.
  destruct (get_area db (aggregationarea self)) as [area|] eqn:Harea; [|done].
  destruct (value_count _ _ _ _ _ _) as [aggregation_result|] eqn:Hcount;
    [|done].
  destruct (Model_save_result db _) as [db1 [saved1|]] eqn:Hmodel; [|done].
  destruct (Model_save_result_stored _ _ _ _ Hmodel)
    as (Hin & [pk Hpk] & Hkey & Hvalue & Hthrough & Hlayers).
  rewrite Hpk in Hsave.
  destruct (add_rasterlayers db1 pk _) as [db2 [[]|]] eqn:Hadd; [|done].
  injection Hsave as -> ->.
  exists area, aggregation_result.
  destruct (add_rasterlayers_frame _ _ _ _ _ Hadd) as (Hrows & _).
  assert (layer_names saved = layer_names self) as Hnames
    by (unfold unique_together in Hkey; simpl in Hkey; congruence).
  split; [done|]. split; [done|]. split; [by rewrite Hrows|].
  split; [exact Hkey|]. split; [exact Hvalue|].
  split; [intros key; rewrite Hvalue; simpl; by rewrite lookup_fmap|].
  intros alias layer_id Halias.
  destruct (add_rasterlayers_added _ _ _ _ Hadd layer_id)
    as (lyr & Hint & Hlyr & Hdep).
  { rewrite Hnames. apply elem_of_values. eauto. }
  exists lyr. split; [done|]. split; [by rewrite <- Hlayers|].
  exists pk. done.
Qed.

End ResultSaveFacts.

(** A new result over the raster layers 1 and 2, saved next to the two
    stored ones: it gets the id 3, the counts 605 and 56 as text, and both
    layers as dependencies. *)
Lemma result_save_value_and_dependencies_witness :
  Models.ValueCountResult_save results_db result_new
  = ((Models.ValueCountResult_save results_db result_new).1,
     Ret result_new_saved)
  ∧ result_new_saved
    ∈ Models.valuecountresults
        (Models.ValueCountResult_save results_db result_new).1
  ∧ Models.value result_new_saved = {[ "1" := "605"; "2" := "56" ]}
  ∧ Models.depends_on
      (Models.ValueCountResult_save results_db result_new).1 result_new_saved 1
  ∧ Models.depends_on
      (Models.ValueCountResult_save results_db result_new).1 result_new_saved 2.
Proof.
  assert (Models.ValueCountResult_save results_db result_new
          = ((Models.ValueCountResult_save results_db result_new).1,
             Ret result_new_saved)) as Hsave
    by reflexivity.
  split; [exact Hsave|].
  destruct (result_save_value_and_dependencies _ _ _ _ Hsave)
    as (area & aggregation_result & _ & _ & Hin & _ & _ & _ & Hdeps).
  split; [exact Hin|]. split; [reflexivity|].
  split.
  - destruct (Hdeps "a" "1" eq_refl) as (lyr & Hint & _ & Hdep).
    injection Hint as <-. exact Hdep.
  - destruct (Hdeps "b" "2" eq_refl) as (lyr & Hint & _ & Hdep).
    injection Hint as <-. exact Hdep.
Defined.

(** ** The cached results: uniqueness *)

Section UniquenessFacts.
Import Models.
Context `{Raster}.

Lemma update_rows_none {A} (same : A → Prop) `{∀ r, Decision (same r)}
    (new : A) (rows : list A) :
  ¬ Exists same rows → update_rows same new rows = rows.
Proof.
  unfold update_rows. induction rows as [|r rows IH]; [done|].
  rewrite Exists_cons. intros Hnone. csimpl.
  rewrite decide_False by tauto. f_equal. apply IH. tauto.
Qed.

Lemma update_rows_pks (self : ValueCountResult) (i : Z)
    (rows : list ValueCountResult) :
  vcr_id self = Some i →
  vcr_id <$> update_rows (λ r, vcr_id r = Some i) self rows = vcr_id <$> rows.
Proof.
  intros Hid. unfold update_rows. rewrite <- list_fmap_compose.
  apply list_fmap_ext. intros _ r _. simpl. case_decide; congruence.
Qed.

Lemma update_rows_keys (self : ValueCountResult) (i : Z)
    (rows : list ValueCountResult) :
  vcr_id self = Some i →
  NoDup (vcr_id <$> rows) →
  NoDup (unique_together <$> rows) →
  ¬ Exists (conflicts self) rows →
  NoDup (unique_together <$> update_rows (λ r, vcr_id r = Some i) self rows).
Proof.
  intros Hid. induction rows as [|c rows IH]; [done|].
  csimpl. rewrite !NoDup_cons, Exists_cons.
  intros [Hpk Hpks] [Hkey Hkeys] Hfree.
  assert (∀ r, r ∈ rows → vcr_id r ≠ Some i →
               unique_together r ≠ unique_together self) as Hother.
  { intros r Hin Hne Heq. apply Hfree. right. apply Exists_exists.
    exists r. split; [done|]. split; congruence. }
  case_decide as Hc.
  - rewrite update_rows_none.
    + split; [|done].
      intros (r & Heq & Hin)%list_elem_of_fmap. apply (Hother r); auto.
      intros Hr. apply Hpk. rewrite Hc, <- Hr. by apply list_elem_of_fmap_2.
    + intros (r & Hin & Hr)%Exists_exists.
      apply Hpk. rewrite Hc, <- Hr. by apply list_elem_of_fmap_2.
  - split; [|apply IH; tauto].
    intros (r & Heq & [[-> _]|[Hin _]]%elem_of_update_rows)%list_elem_of_fmap.
    + apply Hfree. left. split; congruence.
    + apply Hkey. rewrite Heq. by apply list_elem_of_fmap_2.
Qed.

Lemma NoDup_snoc_fmap {A B} (f : A → B) (rows : list A) (new : A) :
  NoDup (f <$> rows) → (∀ r, r ∈ rows → f r ≠ f new) →
  NoDup (f <$> rows ++ [new]).
Proof.
  intros Hnodup Hfresh. rewrite fmap_app, NoDup_app. simpl.
  split; [done|]. split; [|apply NoDup_singleton].
  intros x (r & -> & Hin)%list_elem_of_fmap Hx%list_elem_of_singleton.
  by apply (Hfresh r).
Qed.

Lemma Model_save_result_unique (db : DB) (self : ValueCountResult) :
  results_unique db → results_unique (Model_save_result db self).1.
Proof.
  unfold results_unique, Model_save_result. intros [Hpks Hkeys].
  destruct (vcr_id self) as [i|] eqn:Hid.
  - case_decide as Hfree; [done|]. case_decide as Hstored; simpl.
    + rewrite update_rows_pks by done. split; [done|].
      by apply update_rows_keys.
    + assert (∀ r, r ∈ valuecountresults db → vcr_id r ≠ vcr_id self)
        as Hfresh.
      { intros r Hin Hr. apply Hstored, Exists_exists. exists r.
        split; congruence. }
      split; apply NoDup_snoc_fmap; try done.
      intros r Hin Hr. apply Hfree, Exists_exists. exists r.
      split; [done|]. split; [by apply Hfresh|done].
  - case_decide as Hfree; [done|]. simpl.
    assert (∀ r, r ∈ valuecountresults db →
                 vcr_id r ≠ Some (valuecountresult_seq db + 1)%Z) as Hfresh.
    { intros r Hin Hr. apply Hfree. left. apply Exists_exists. by exists r. }
    split; apply NoDup_snoc_fmap; try done.
    intros r Hin Hr. apply Hfree. right. apply Exists_exists. exists r.
    split; [done|]. split; [by apply Hfresh|done].
Qed.

Lemma ValueCountResult_save_unique (db : DB) (self : ValueCountResult) :
  results_unique db → results_unique (ValueCountResult_save db self).1.
Proof.
  intros Hunique. unfold ValueCountResult_save.
  destruct (get_area db (aggregationarea self)) as [area|]; [|done].
  destruct (value_count _ _ _ _ _ _) as [aggregation_result|]; [|done].
  pose proof (Model_save_result_unique db
                (with_value self (str_count <$> aggregation_result)) Hunique)
    as Hsaved.
  destruct (Model_save_result db _) as [db1 [saved|]]; [|done].
  destruct (vcr_id saved) as [pk|]; [|done].
  destruct (add_rasterlayers db1 pk _) as [db2 res] eqn:Hadd.
  destruct (add_rasterlayers_frame _ _ _ _ _ Hadd) as (Hrows & _).
  assert (results_unique db2) as Hdb2.
  { unfold results_unique. by rewrite Hrows. }
  by destruct res.
Qed.

Lemma delete_results_unique (db : DB) (sel : ValueCountResult → Prop)
    `{∀ r, Decision (sel r)} :
  results_unique db → results_unique (delete_results db sel).
Proof.
  unfold results_unique, delete_results. simpl. intros [Hpks Hkeys].
  split; (eapply sublist_NoDup; [eassumption|]);
    apply fmap_sublist, sublist_filter.
Qed.

Lemma reachable_results_unique (db : DB) : reachable db → results_unique db.
Proof.
  induction 1 as [db Hempty|db self _ IH|db lyr _ IH|db legend _ IH
                 |db sel dec _ IH|db db' _ IH Hrows].
  - unfold results_unique. rewrite Hempty. split; constructor.
  - by apply ValueCountResult_save_unique.
  - by apply delete_results_unique.
  - by apply delete_results_unique.
  - unfold delete_areas.
    by apply (delete_results_unique db
                (λ r, Some (aggregationarea r)
                      ∈ area_id <$> filter sel (aggregationareas db))).
  - unfold results_unique. by rewrite Hrows.
Qed.

(** C1. In every database the code produces, two distinct stored results
    never agree on the whole tuple (aggregation area, formula, layer-alias
    mapping, zoom, units, grouping), where two alias mappings agree when
    every alias is mapped alike by both, whatever the order in which their
    pairs were written. *)
Theorem results_unique_together (db : DB) (i j : nat)
    (r1 r2 : ValueCountResult) :
  reachable db →
  i ≠ j →
  valuecountresults db !! i = Some r1 →
  valuecountresults db !! j = Some r2 →
  ¬ (aggregationarea r1 = aggregationarea r2
     ∧ formula r1 = formula r2
     ∧ (∀ alias, layer_names r1 !! alias = layer_names r2 !! alias)
     ∧ zoom r1 = zoom r2
     ∧ units r1 = units r2
     ∧ grouping r1 = grouping r2).
Proof.
  intros [_ Hkeys]%reachable_results_unique Hij Hi Hj
    (Harea & Hformula & Hnames%map_eq & Hzoom & Hunits & Hgrouping).
  apply Hij. rewrite NoDup_alt in Hkeys.
  apply (Hkeys i j (unique_together r1)).
  - by rewrite list_lookup_fmap, Hi.
  - rewrite list_lookup_fmap, Hj. simpl. unfold unique_together. congruence.
Qed.

End UniquenessFacts.

(** After two saves the table holds two results, and they differ on the
    tuple. *)
Lemma results_unique_together_witness :
  Models.valuecountresults two_saves_db !! 0%nat = Some two_saves_row_1
  ∧ Models.valuecountresults two_saves_db !! 1%nat = Some two_saves_row_2
  ∧ ¬ (Models.aggregationarea two_saves_row_1
       = Models.aggregationarea two_saves_row_2
       ∧ Models.formula two_saves_row_1 = Models.formula two_saves_row_2
       ∧ (∀ alias, Models.layer_names two_saves_row_1 !! alias
                   = Models.layer_names two_saves_row_2 !! alias)
       ∧ Models.zoom two_saves_row_1 = Models.zoom two_saves_row_2
       ∧ Models.units two_saves_row_1 = Models.units two_saves_row_2
       ∧ Models.grouping two_saves_row_1 = Models.grouping two_saves_row_2).
Proof.
  assert (Models.reachable two_saves_db) as Hreach.
  { unfold two_saves_db. do 2 apply Models.reachable_save.
    apply Models.reachable_init. reflexivity. }
  assert (Models.valuecountresults two_saves_db !! 0%nat
          = Some two_saves_row_1) as Hrow1 by reflexivity.
  assert (Models.valuecountresults two_saves_db !! 1%nat
          = Some two_saves_row_2) as Hrow2 by reflexivity.
  split; [exact Hrow1|]. split; [exact Hrow2|].
  apply (results_unique_together two_saves_db 0 1 _ _ Hreach); [lia|done..].
Defined.

(** The request of the first save again, its aliases written in the other
    order: the database refuses the row. *)
Example save_reordered_aliases_refused :
  (Models.ValueCountResult_save two_saves_db result_new_reordered).2
  = Raise IntegrityError
  ∧ Models.valuecountresults
      (Models.ValueCountResult_save two_saves_db result_new_reordered).1
    = Models.valuecountresults two_saves_db.
Proof. split; reflexivity. Qed.

(** ** The shapefile parser *)

Section ParserFacts.
Import Models Parser.
Context `{Raster} `{Clock}.
Variable repr_fields : list string → string.







Lemma Model_save_layer_frame (db_ : DB) (self_ : AggregationLayer) :
  aggregationareas (Model_save_layer db_ self_) = aggregationareas db_
  ∧ aggregationarea_seq (Model_save_layer db_ self_) = aggregationarea_seq db_
  ∧ valuecountresults (Model_save_layer db_ self_) = valuecountresults db_.
Proof. unfold Model_save_layer. by case_decide. Qed.









(** A run that fails before the loop is the start entry followed by one
    error entry. *)
Lemma parse_file_level_failure (self_ : AggregationLayer) (db_ : DB) (t : nat)
    (shapefile : Shapefile) :
  file_level_failure self_ shapefile →
  ∃ reason,
    parse repr_fields self_ db_ t shapefile
    = self_log
        (self_log {| self := self_; db := db_; clock := t |}
           ("Started parsing Aggregation Layer " +:+ Py.str_int (al_id self_)))
        ("Error: " +:+ reason).
Proof.
  intros Hfail. destruct shapefile as [| | |lyr]; simpl in Hfail.
  - by exists "Could not download file, aborted parsing".
  - by exists "Could not open zipfile, aborted parsing".
  - by exists "Failed to extract layer from shapefile, aborted parsing".
  - destruct (decide (Py.lower (name_column self_) ∉ Py.lower <$> fields lyr))
      as [Hcolumn|Hcolumn].
    + exists ("Name column " +:+ Py.dq +:+ name_column self_ +:+ Py.dq
              +:+ " not found, aborted parsing. Available columns: "
              +:+ repr_fields (fields lyr)).
      unfold parse. simpl. by rewrite decide_True.
    + destruct Hfail as [Hfail|[e Hfail]]; [done|].
      exists "Layer srs not specified, aborted parsing".
      unfold parse. simpl. by rewrite decide_False, Hfail.
Qed.




End ParserFacts.

(** The run on [shapefile_good]: the first feature becomes an area with
    the next id, the second and the third leave a warning each, and the
    three areas layer 10 had before are gone. *)
Example parse_good_run :
  Models.parse_log
    (Parser.self (Parser.parse repr_fields layer_10 tiles_db 0 shapefile_good))
  = Parser.entries 0
      [ "Started parsing Aggregation Layer 10";
        "Warning: Found invalid geometry for feature fid 1" +:+ Py.nl;
        "Warning: Failed to create AggregationArea for feature fid 2" +:+ Py.nl;
        "Finished parsing Aggregation Layer 10" ]
  ∧ Models.area_name
    <$> Models.aggregationareas
          (Parser.db
             (Parser.parse repr_fields layer_10 tiles_db 0 shapefile_good))
    = [Some "Florida"; Some "Pinellas"].
Proof. split; reflexivity. Qed.



(** * Further properties of the code *)

(** ** models.py: saving layers and areas *)

Section SaveFacts.
Import Models.
Context `{Raster} `{Clock}.

Lemma find_update_rows {A} (P : A → Prop) `{∀ r, Decision (P r)}
    (new : A) (rows : list A) :
  P new → Exists P rows →
  List.find (λ r, bool_decide (P r)) (update_rows P new rows) = Some new.
Proof.
  intros Hnew. unfold update_rows.
  induction rows as [|r rows IH]; [by intros ?%Exists_nil|].
  rewrite Exists_cons. intros Hex. csimpl. case_decide as Hr.
  - by rewrite bool_decide_true.
  - rewrite bool_decide_false by done. apply IH. tauto.
Qed.

Lemma find_snoc_fresh {A} (P : A → Prop) `{∀ r, Decision (P r)}
    (new : A) (rows : list A) :
  P new → ¬ Exists P rows →
  List.find (λ r, bool_decide (P r)) (rows ++ [new]) = Some new.
Proof.
  intros Hnew. induction rows as [|r rows IH]; simpl.
  - by rewrite bool_decide_true.
  - rewrite Exists_cons. intros Hno.
    rewrite bool_decide_false by tauto. apply IH. tauto.
Qed.

Lemma find_update_rows_other {A} (P Q : A → Prop) `{∀ r, Decision (P r)}
    `{∀ r, Decision (Q r)} (new : A) (rows : list A) :
  ¬ Q new → (∀ r, P r → ¬ Q r) →
  List.find (λ r, bool_decide (Q r)) (update_rows P new rows)
  = List.find (λ r, bool_decide (Q r)) rows.
Proof.
  intros Hnew Hdisjoint. unfold update_rows.
  induction rows as [|r rows IH]; [done|]. csimpl. case_decide as Hr.
  - rewrite !bool_decide_false; [done|by apply Hdisjoint|done].
  - by rewrite IH.
Qed.

Lemma find_snoc_other {A} (Q : A → Prop) `{∀ r, Decision (Q r)}
    (new : A) (rows : list A) :
  ¬ Q new →
  List.find (λ r, bool_decide (Q r)) (rows ++ [new])
  = List.find (λ r, bool_decide (Q r)) rows.
Proof.
  intros Hnew. induction rows as [|r rows IH]; simpl.
  - by rewrite bool_decide_false.
  - by rewrite IH.
Qed.

Lemma Model_save_layer_get (db : DB) (self : AggregationLayer) :
  get_layer (Model_save_layer db self) (al_id self) = Some self
  ∧ ∀ i, i ≠ al_id self →
      get_layer (Model_save_layer db self) i = get_layer db i.
Proof.
  unfold get_layer, Model_save_layer. case_decide as Hstored; simpl.
  - split.
    + by apply (find_update_rows (λ l, al_id l = al_id self)).
    + intros i Hi.
      apply (find_update_rows_other (λ l, al_id l = al_id self)
               (λ l, al_id l = i)); [done|congruence].
  - split.
    + by apply (find_snoc_fresh (λ l, al_id l = al_id self)).
    + intros i Hi. by apply (find_snoc_other (λ l, al_id l = i)).
Qed.


Lemma Model_save_area_get (db db' : DB) (self saved : AggregationArea) :
  Model_save_area db self = (db', Ret saved) →
  ∃ i, area_id saved = Some i
       ∧ get_area db' i = Some saved
       ∧ (∀ a, a ∈ aggregationareas db' → area_id a = Some i → a = saved)
       ∧ aggregationlayers db' = aggregationlayers db.
Proof.
  unfold Model_save_area, get_area. intros Hsave.
  destruct (area_id self) as [i|] eqn:Hid; repeat case_decide;
    simplify_eq/=.
  - exists i. split; [done|]. split; [|split; [|done]].
    + by apply (find_update_rows (λ a, area_id a = Some i)).
    + intros a [[-> _]|[_ Ha]]%elem_of_update_rows Hi; done.
  - exists i. split; [done|]. split; [|split; [|done]].
    + by apply (find_snoc_fresh (λ a, area_id a = Some i)).
    + intros a [Ha| ->%list_elem_of_singleton]%elem_of_app Hi; [|done].
      match goal with Hno : ¬ Exists _ _ |- _ =>
        destruct Hno; apply Exists_exists; by exists a end.
  - eexists. split; [done|]. split; [|split; [|done]].
    + by apply (find_snoc_fresh
                  (λ a, area_id a = Some (aggregationarea_seq db + 1)%Z)).
    + intros a [Ha| ->%list_elem_of_singleton]%elem_of_app Hi; [|done].
      match goal with Hno : ¬ Exists _ _ |- _ =>
        destruct Hno; apply Exists_exists; by exists a end.
Qed.

Lemma AggregationArea_save_inv (db db' : DB) (self : AggregationArea)
    (res : Res AggregationArea) :
  AggregationArea_save db self = (db', res) →
  (db' = db ∧ ∃ e, res = Raise e)
  ∨ ∃ layer_id lyr g,
      aggregationlayer self = Some layer_id
      ∧ get_layer db layer_id = Some lyr
      ∧ convert_to_multipolygon
          (simplify (geom self) (simplification_tolerance lyr) true) = Ret g
      ∧ Model_save_area db (with_geom_simplified self g) = (db', res).
Proof.
  unfold AggregationArea_save. intros Hsave.
  destruct (aggregationlayer self) as [layer_id|];
    [|left; simplify_eq; eauto].
  destruct (get_layer db layer_id) as [lyr|] eqn:Hget;
    [|left; simplify_eq; eauto].
  destruct (convert_to_multipolygon _) as [g|] eqn:Hconvert;
    [|left; simplify_eq; eauto].
  right. by exists layer_id, lyr, g.
Qed.

(** X2. What [AggregationArea.save] returns has an id, and looking that id
    up in the database gives the very row returned: the area's own
    geometry with the simplified one derived from it. *)
Theorem area_save_then_get (db db' : DB) (self saved : AggregationArea) :
  AggregationArea_save db self = (db', Ret saved) →
  ∃ i, area_id saved = Some i
       ∧ get_area db' i = Some saved
       ∧ geom saved = geom self
       ∧ (area_id self = Some i ∨ area_id self = None).
Proof.
  intros [[_ [e ?]]|(layer_id & lyr & g & _ & _ & _ & Hmodel)]%AggregationArea_save_inv;
    [done|].
  destruct (Model_save_area_get _ _ _ _ Hmodel) as (i & Hid & Hget & _).
  destruct (Model_save_area_stored _ _ _ _ Hmodel) as (_ & _ & _ & Hgeom & _).
  exists i. repeat (split; [done|]).
  unfold Model_save_area in Hmodel. simpl in Hmodel.
  destruct (area_id self) as [j|] eqn:Hj; [|by right].
  left. repeat case_decide; simplify_eq/=; congruence.
Qed.

(** X3. Saving again what [AggregationArea.save] returned changes nothing:
    the database stays as the first save left it and the same row comes
    back. *)
Theorem area_save_idempotent (db db' : DB) (self saved : AggregationArea) :
  AggregationArea_save db self = (db', Ret saved) →
  AggregationArea_save db' saved = (db', Ret saved).
Proof.
  intros [[_ [e ?]]|(layer_id & lyr & g & Hlayer & Hget & Hconvert & Hmodel)]%AggregationArea_save_inv;
    [done|].
  destruct (Model_save_area_get _ _ _ _ Hmodel) as (i & Hid & _ & Hrows & Hlayers).
  destruct (Model_save_area_stored _ _ _ _ Hmodel)
    as (Hin & _ & Hsaved_layer & Hgeom & Hsimplified & _).
  simpl in Hsaved_layer, Hgeom, Hsimplified.
  unfold AggregationArea_save.
  rewrite Hsaved_layer, Hlayer.
  assert (get_layer db' layer_id = get_layer db layer_id) as ->
    by (unfold get_layer; by rewrite Hlayers).
  rewrite Hget, Hgeom, Hconvert.
  assert (with_geom_simplified saved g = saved) as ->.
  { destruct saved. unfold with_geom_simplified. simpl in *. congruence. }
  unfold Model_save_area. rewrite Hid.
  rewrite decide_True by (apply Exists_exists; by exists saved).
  f_equal. destruct db'. unfold set_areas. simpl in *. f_equal.
  unfold update_rows. rewrite <- (list_fmap_id aggregationareas0) at 2.
  apply list_fmap_ext. intros _ a Ha%list_elem_of_lookup_2. simpl.
  case_decide; [|done]. symmetry. by apply Hrows.
Qed.

(** X4. A save of an area that raises stores nothing: areas, layers and
    cached results are as before; without a layer it raises
    [AttributeError], with the id of a layer that is not stored
    [DoesNotExist]. *)
Theorem area_save_failure_stores_nothing (db db' : DB)
    (self : AggregationArea) (e : Exn) :
  AggregationArea_save db self = (db', Raise e) →
  aggregationareas db' = aggregationareas db
  ∧ aggregationlayers db' = aggregationlayers db
  ∧ valuecountresults db' = valuecountresults db
  ∧ (aggregationlayer self = None → e = AttributeError)
  ∧ (∀ layer_id, aggregationlayer self = Some layer_id →
       get_layer db layer_id = None → e = DoesNotExist).
Proof.
  intros Hsave.
  assert (aggregationareas db' = aggregationareas db
          ∧ aggregationlayers db' = aggregationlayers db
          ∧ valuecountresults db' = valuecountresults db) as Hframe.
  { apply AggregationArea_save_inv in Hsave
      as [[-> _]|(layer_id & lyr & g & _ & _ & _ & Hmodel)]; [done|].
    unfold Model_save_area in Hmodel.
    destruct (area_id (with_geom_simplified self g));
      repeat case_decide; by simplify_eq/=. }
  destruct Hframe as (-> & -> & ->). repeat (split; [done|]).
  unfold AggregationArea_save in Hsave. split.
  - intros Hnone. rewrite Hnone in Hsave. by simplify_eq.
  - intros layer_id Hlayer Hget. rewrite Hlayer, Hget in Hsave.
    by simplify_eq.
Qed.

(** X5. [AggregationArea.save] keeps the primary keys of the areas unique,
    whether it returns or raises. *)
Theorem area_save_keeps_ids_unique (db : DB) (self : AggregationArea) :
  NoDup (area_id <$> aggregationareas db) →
  NoDup (area_id <$> aggregationareas (AggregationArea_save db self).1).
Proof.
  intros Hnodup.
  destruct (AggregationArea_save db self) as [db' res] eqn:Hsave. simpl.
  apply AggregationArea_save_inv in Hsave
    as [[-> _]|(layer_id & lyr & g & _ & _ & _ & Hmodel)]; [done|].
  unfold Model_save_area in Hmodel. simpl in Hmodel.
  destruct (area_id self) as [i|] eqn:Hid; repeat case_decide;
    simplify_eq/=; try done.
  - unfold update_rows. rewrite <- list_fmap_compose.
    erewrite list_fmap_ext; [exact Hnodup|].
    intros _ a _. simpl. case_decide; simpl; congruence.
  - apply NoDup_snoc_fmap; [done|]. simpl. intros a Ha Heq.
    match goal with Hno : ¬ Exists _ _ |- _ =>
      destruct Hno; apply Exists_exists; exists a; split; congruence end.
  - apply NoDup_snoc_fmap; [done|]. simpl. intros a Ha Heq.
    match goal with Hno : ¬ Exists _ _ |- _ =>
      destruct Hno; apply Exists_exists; by exists a end.
Qed.

End SaveFacts.

(** St Petersburg, saved with a changed geometry, is found under its id 2
    as it was stored. *)
Lemma area_save_then_get_witness :
  Models.get_area (Models.AggregationArea_save tiles_db st_petersburg_moved).1 2
  = Some st_petersburg_saved.
Proof.
  destruct (area_save_then_get tiles_db
              (Models.AggregationArea_save tiles_db st_petersburg_moved).1
              st_petersburg_moved st_petersburg_saved eq_refl)
    as (i & Hid & Hget & _).
  injection Hid as <-. exact Hget.
Defined.

Lemma area_save_idempotent_witness :
  Models.AggregationArea_save
    (Models.AggregationArea_save tiles_db st_petersburg_moved).1
    st_petersburg_saved
  = ((Models.AggregationArea_save tiles_db st_petersburg_moved).1,
     Ret st_petersburg_saved).
Proof.
  apply (area_save_idempotent tiles_db _ st_petersburg_moved). reflexivity.
Defined.

(** With the sequence one behind, the insert of a new area collides with
    the id 4: the sequence moves on, nothing is stored. *)
Lemma area_save_failure_stores_nothing_witness :
  Models.AggregationArea_save stale_seq_db area_new
  = ((Models.AggregationArea_save stale_seq_db area_new).1, Raise IntegrityError)
  ∧ Models.aggregationarea_seq
      (Models.AggregationArea_save stale_seq_db area_new).1 = 4%Z
  ∧ Models.aggregationareas (Models.AggregationArea_save stale_seq_db area_new).1
    = Models.aggregationareas stale_seq_db
  ∧ Models.AggregationArea_save tiles_db area_no_layer
    = (tiles_db, Raise AttributeError).
Proof.
  assert (Models.AggregationArea_save stale_seq_db area_new
          = ((Models.AggregationArea_save stale_seq_db area_new).1,
             Raise IntegrityError)) as Hsave by reflexivity.
  split; [exact Hsave|]. split; [reflexivity|]. split; [|reflexivity].
  by apply (area_save_failure_stores_nothing _ _ _ _ Hsave).
Defined.

Lemma area_save_keeps_ids_unique_witness :
  NoDup (Models.area_id
         <$> Models.aggregationareas
               (Models.AggregationArea_save tiles_db area_new).1).
Proof.
  apply (area_save_keeps_ids_unique tiles_db area_new).
  apply (bool_decide_unpack _). reflexivity.
Defined.

(** ** models.py: the cached results and their dependencies *)

Section ResultFacts.
Import Models.
Context `{Raster}.

Lemma Model_save_result_frame (db db' : DB) (self : ValueCountResult)
    (res : Res ValueCountResult) :
  Model_save_result db self = (db', res) →
  valuecountresult_rasterlayers db' = valuecountresult_rasterlayers db
  ∧ rasterlayers db' = rasterlayers db
  ∧ aggregationareas db' = aggregationareas db
  ∧ (∀ r, r ∈ valuecountresults db →
       ∃ r', r' ∈ valuecountresults db' ∧ vcr_id r' = vcr_id r)
  ∧ ((∃ e, res = Raise e) → valuecountresults db' = valuecountresults db).
Proof.
  unfold Model_save_result. intros Hsave.
  destruct (vcr_id self) as [i|] eqn:Hid; repeat case_decide;
    simplify_eq/=; repeat (split; [done|]).
  - split; [eauto|done].
  - split; [|by intros [? ?]]. intros r Hr.
    destruct (decide (vcr_id r = Some i)) as [Hri|Hri].
    + exists self. split; [|congruence].
      apply elem_of_update_rows. left. split; [done|].
      apply Exists_exists. eauto.
    + exists r. split; [|done]. apply elem_of_update_rows. auto.
  - split; [|by intros [? ?]]. intros r Hr. exists r.
    split; [|done]. apply elem_of_app. auto.
  - split; [eauto|done].
  - split; [|by intros [? ?]]. intros r Hr. exists r.
    split; [|done]. apply elem_of_app. auto.
Qed.

(** X6. A result whose tuple another stored row already holds is refused:
    [ValueCountResult.save] raises [IntegrityError] once the aggregation is
    computed, and the stored results and their dependencies are as
    before. *)
Theorem result_save_duplicate_refused (db : DB) (self r : ValueCountResult)
    (area : AggregationArea) (aggregation_result : gmap string Count) :
  get_area db (aggregationarea self) = Some area →
  value_count (layer_names self) (formula self) (zoom self) (geom area)
    (bool_decide (Py.lower (units self) = "acres")) (grouping self)
  = Ret aggregation_result →
  r ∈ valuecountresults db →
  vcr_id r ≠ vcr_id self →
  unique_together r = unique_together self →
  (ValueCountResult_save db self).2 = Raise IntegrityError
  ∧ valuecountresults (ValueCountResult_save db self).1 = valuecountresults db
  ∧ valuecountresult_rasterlayers (ValueCountResult_save db self).1
    = valuecountresult_rasterlayers db.
Proof.
  intros Harea Hcount Hr Hpk Hkey. unfold ValueCountResult_save.
  rewrite Harea, Hcount. unfold Model_save_result. simpl.
  destruct (vcr_id self) as [i|] eqn:Hid.
  - rewrite decide_True; [done|].
    apply Exists_exists. exists r. split; [done|]. split; [|done].
    simpl. congruence.
  - rewrite decide_True; [done|].
    destruct (decide (vcr_id r = Some (valuecountresult_seq db + 1)%Z)).
    + left. apply Exists_exists. eauto.
    + right. apply Exists_exists. exists r. split; [done|]. by split.
Qed.

Lemma add_rasterlayers_through (db db' : DB) (pk : Z)
    (layer_ids : list string) (res : Res unit) (p : Z * Z) :
  add_rasterlayers db pk layer_ids = (db', res) →
  p ∈ valuecountresult_rasterlayers db' →
  p ∈ valuecountresult_rasterlayers db
  ∨ (p.1 = pk ∧ ∃ layer_id, layer_id ∈ layer_ids ∧ to_int layer_id = Some p.2).
Proof.
  revert db. induction layer_ids as [|layer_id rest IH]; intros db Hadd Hp;
    simplify_eq/=; [by left|].
  unfold RasterLayer_get in Hadd.
  destruct (to_int layer_id) as [lyr|] eqn:Hint; simplify_eq/=; [|by left].
  case_decide; simplify_eq/=; [|by left].
  destruct (IH _ Hadd Hp) as [Hold|(Hpk & s & Hs & Hint')].
  - apply rasterlayers_add_through in Hold as [Hold| ->]; [by left|].
    right. split; [done|]. exists layer_id. split; [left|done].
  - right. split; [done|]. exists s. split; [by right|done].
Qed.

Lemma through_ok_add_rasterlayers (db db' : DB) (pk : Z)
    (layer_ids : list string) (res : Res unit) (r : ValueCountResult) :
  add_rasterlayers db pk layer_ids = (db', res) →
  r ∈ valuecountresults db → vcr_id r = Some pk →
  through_ok db → through_ok db'.
Proof.
  intros Hadd Hr Hpk Hok p Hp.
  destruct (add_rasterlayers_frame _ _ _ _ _ Hadd) as (-> & _).
  destruct (add_rasterlayers_through _ _ _ _ _ _ Hadd Hp) as [Hold|[Hp1 _]].
  - by apply Hok.
  - exists r. split; [done|]. congruence.
Qed.

Lemma through_ok_delete_results (db : DB) (sel : ValueCountResult → Prop)
    `{∀ r, Decision (sel r)} :
  through_ok db → through_ok (delete_results db sel).
Proof.
  unfold through_ok, delete_results. simpl.
  intros Hok p [Hkept Hp]%list_elem_of_filter.
  destruct (Hok p Hp) as (r & Hr & Hpk). exists r. split; [|done].
  apply list_elem_of_filter. split; [|done]. intros Hsel. apply Hkept.
  rewrite <- Hpk. apply list_elem_of_fmap_2, list_elem_of_filter. auto.
Qed.

(** X7. The through table never points at a result that is not stored:
    if every dependency row belongs to a stored result, this is still so
    after [ValueCountResult.save] (returning or raising), after either
    receiver, and after areas are deleted with their results. *)
Theorem through_rows_belong_to_results (db : DB) :
  through_ok db →
  (∀ self, through_ok (ValueCountResult_save db self).1)
  ∧ (∀ instance,
       through_ok
         (remove_aggregation_results_after_rasterlayer_change db instance))
  ∧ (∀ instance_id,
       through_ok
         (remove_aggregation_results_after_legend_change db instance_id))
  ∧ (∀ (sel : AggregationArea → Prop) (dec : ∀ a, Decision (sel a)),
       through_ok (delete_areas db sel)).
Proof.
  intros Hok. split; [|split; [|split]].
  - intros self. unfold ValueCountResult_save.
    destruct (get_area db (aggregationarea self)) as [area|]; [|done].
    destruct (value_count _ _ _ _ _ _) as [aggregation_result|]; [|done].
    destruct (Model_save_result db _) as [db1 res] eqn:Hmodel.
    destruct (Model_save_result_frame _ _ _ _ Hmodel)
      as (Hthrough & _ & _ & Hrows & _).
    assert (through_ok db1) as Hok1.
    { intros p Hp. rewrite Hthrough in Hp.
      destruct (Hok p Hp) as (r & Hr & Hpk).
      destruct (Hrows r Hr) as (r' & Hr' & Hpk'). exists r'.
      split; [done|]. congruence. }
    destruct res as [saved|e]; [|done].
    destruct (Model_save_result_stored _ _ _ _ Hmodel) as (Hin & _).
    destruct (vcr_id saved) as [pk|] eqn:Hpk; [|done].
    destruct (add_rasterlayers db1 pk _) as [db2 res] eqn:Hadd.
    assert (through_ok db2) as Hok2
      by (by eapply through_ok_add_rasterlayers).
    by destruct res.
  - intros instance. by apply through_ok_delete_results.
  - intros instance_id. by apply through_ok_delete_results.
  - intros sel dec. unfold delete_areas.
    intros p Hp. simpl in *.
    by apply (through_ok_delete_results db
                (λ r, Some (aggregationarea r)
                      ∈ area_id <$> filter sel (aggregationareas db))).
Qed.

(** X8. A result saved for the first time depends on exactly the raster
    layers of its alias mapping: on a database whose through rows all
    belong to stored results, the dependencies recorded for the new row
    are the raster layers whose id is a value of [layer_names], no more
    and no fewer. *)
Theorem new_result_depends_on_its_layers (db db' : DB)
    (self saved : ValueCountResult) (lyr : Z) :
  through_ok db →
  vcr_id self = None →
  ValueCountResult_save db self = (db', Ret saved) →
  depends_on db' saved lyr ↔
  ∃ alias layer_id,
    layer_names self !! alias = Some layer_id ∧ to_int layer_id = Some lyr.
Proof.
  intros Hok Hnew Hsave. unfold ValueCountResult_save in Hsave.
  destruct (get_area db (aggregationarea self)) as [area|]; [|done].
  destruct (value_count _ _ _ _ _ _) as [aggregation_result|]; [|done].
  destruct (Model_save_result db _) as [db1 [saved1|]] eqn:Hmodel; [|done].
  destruct (vcr_id saved1) as [pk1|] eqn:Hpk1; [|done].
  destruct (add_rasterlayers db1 pk1 _) as [db2 [[]|]] eqn:Hadd; [|done].
  injection Hsave as -> ->.
  destruct (Model_save_result_frame _ _ _ _ Hmodel) as (Hthrough1 & Hlayers & _).
  destruct (Model_save_result_stored _ _ _ _ Hmodel) as (_ & _ & Hkey & _).
  assert (layer_names saved = layer_names self) as Hnames
    by (unfold unique_together in Hkey; simpl in Hkey; congruence).
  split.
  - intros (pk & Hpk & Hthrough).
    assert (pk1 = pk) as -> by congruence.
    destruct (add_rasterlayers_through _ _ _ _ _ _ Hadd Hthrough)
      as [Hold|(_ & layer_id & [alias Halias]%elem_of_values & Hint)].
    + rewrite Hthrough1 in Hold. destruct (Hok _ Hold) as (r & Hr & Hrpk).
      unfold Model_save_result in Hmodel. simpl in Hmodel.
      rewrite Hnew in Hmodel. case_decide as Hfree; simplify_eq/=.
      destruct Hfree. left. apply Exists_exists. eauto.
    + exists alias, layer_id. split; [|done]. congruence.
  - intros (alias & layer_id & Halias & Hint).
    destruct (add_rasterlayers_added _ _ _ _ Hadd layer_id)
      as (lyr' & Hint' & _ & Hdep).
    { rewrite Hnames. apply elem_of_values. eauto. }
    exists pk1. split; [done|]. congruence.
Qed.

Lemma filter_all {A} (P : A → Prop) `{∀ x, Decision (P x)} (l : list A) :
  (∀ x, x ∈ l → P x) → filter P l = l.
Proof.
  induction l as [|x l IH]; [done|]. intros Hall.
  rewrite filter_cons_True by (apply Hall; left).
  f_equal. apply IH. intros y Hy. apply Hall. by right.
Qed.

Lemma filter_none {A} (P : A → Prop) `{∀ x, Decision (P x)} (l : list A) :
  (∀ x, x ∈ l → ¬ P x) → filter P l = [].
Proof.
  induction l as [|x l IH]; [done|]. intros Hnone.
  rewrite filter_cons_False by (apply Hnone; left).
  apply IH. intros y Hy. apply Hnone. by right.
Qed.

Lemma delete_results_none (db : DB) (sel : ValueCountResult → Prop)
    `{∀ r, Decision (sel r)} :
  (∀ r, r ∈ valuecountresults db → ¬ sel r) →
  delete_results db sel
  = set_results db (valuecountresults db) (valuecountresult_seq db)
      (valuecountresult_rasterlayers db).
Proof.
  intros Hnone. unfold delete_results.
  rewrite (filter_none sel) by done.
  rewrite (filter_all (λ r, ¬ sel r)) by done.
  rewrite filter_all; [done|]. intros p _. simpl. by intros ?%elem_of_nil.
Qed.

(** X9. After the receiver of the raster-layer signal ran for a layer, no
    stored result depends on that layer, and after the receiver of the
    legend signal ran for a legend no stored result is grouped by it;
    running either receiver a second time for the same layer or legend
    changes nothing. *)
Theorem receivers_idempotent (db : DB) :
  (∀ instance r,
     r ∈ valuecountresults
           (remove_aggregation_results_after_rasterlayer_change db instance) →
     ¬ depends_on
         (remove_aggregation_results_after_rasterlayer_change db instance)
         r instance)
  ∧ (∀ instance,
       remove_aggregation_results_after_rasterlayer_change
         (remove_aggregation_results_after_rasterlayer_change db instance)
         instance
       = remove_aggregation_results_after_rasterlayer_change db instance)
  ∧ (∀ instance_id r,
       r ∈ valuecountresults
             (remove_aggregation_results_after_legend_change db instance_id) →
       grouping r ≠ Py.str_int instance_id)
  ∧ (∀ instance_id,
       remove_aggregation_results_after_legend_change
         (remove_aggregation_results_after_legend_change db instance_id)
         instance_id
       = remove_aggregation_results_after_legend_change db instance_id).
Proof.
  assert (∀ instance r,
            r ∈ valuecountresults
                  (remove_aggregation_results_after_rasterlayer_change db
                     instance) →
            ¬ depends_on
                (remove_aggregation_results_after_rasterlayer_change db instance)
                r instance) as Hgone.
  { intros instance r [Hr Hkeep]%delete_results_rows (pk & Hpk & Hthrough).
    apply Hkeep. exists pk. split; [done|].
    unfold remove_aggregation_results_after_rasterlayer_change,
      delete_results in Hthrough. simpl in Hthrough.
    by apply list_elem_of_filter in Hthrough as [_ ?]. }
  split; [exact Hgone|]. split; [|split].
  - intros instance.
    unfold remove_aggregation_results_after_rasterlayer_change at 1.
    rewrite delete_results_none by apply Hgone. done.
  - by intros instance_id r [_ ?]%delete_results_rows.
  - intros instance_id.
    unfold remove_aggregation_results_after_legend_change at 1.
    rewrite delete_results_none; [done|].
    by intros r [_ ?]%delete_results_rows.
Qed.

End ResultFacts.

(** [result_new_reordered] asks for the tuple that row 1 of [two_saves_db]
    holds: the save is refused and the table is as before. *)
Lemma result_save_duplicate_refused_witness :
  (Models.ValueCountResult_save two_saves_db result_new_reordered).2
  = Raise IntegrityError
  ∧ Models.valuecountresults
      (Models.ValueCountResult_save two_saves_db result_new_reordered).1
    = Models.valuecountresults two_saves_db
  ∧ Models.valuecountresult_rasterlayers
      (Models.ValueCountResult_save two_saves_db result_new_reordered).1
    = Models.valuecountresult_rasterlayers two_saves_db.
Proof.
  assert (two_saves_row_1 ∈ Models.valuecountresults two_saves_db) as Hrow.
  { apply (list_elem_of_lookup_2 _ 0%nat). reflexivity. }
  assert (Models.unique_together two_saves_row_1
          = Models.unique_together result_new_reordered) as Hkey.
  { reflexivity. }
  destruct (Models.get_area two_saves_db 1) as [area|] eqn:Harea;
    [|discriminate Harea].
  apply (result_save_duplicate_refused two_saves_db result_new_reordered
           two_saves_row_1 area {[ "1" := 605%Z; "2" := 56%Z ]});
    [exact Harea|reflexivity|exact Hrow|discriminate|exact Hkey].
Defined.

Example results_db_through_ok : Models.through_ok results_db.
Proof.
  intros p Hp. change (p ∈ [(1, 1); (2, 2)]%Z) in Hp.
  apply elem_of_cons in Hp as [->|Hp].
  { exists result_1. split; [left|reflexivity]. }
  apply elem_of_cons in Hp as [->|Hp].
  { exists result_2. split; [right; left|reflexivity]. }
  by apply elem_of_nil in Hp.
Qed.

Lemma through_rows_belong_to_results_witness :
  Models.through_ok (Models.ValueCountResult_save results_db result_new).1
  ∧ Models.through_ok
      (Models.remove_aggregation_results_after_rasterlayer_change results_db 1).
Proof.
  destruct (through_rows_belong_to_results results_db results_db_through_ok)
    as (Hsave & Hchange & _).
  split; [apply Hsave|apply Hchange].
Defined.

(** The new result over the layers 1 and 2 depends on layer 2 and, as no
    alias names it, not on layer 3. *)
Lemma new_result_depends_on_its_layers_witness :
  Models.depends_on (Models.ValueCountResult_save results_db result_new).1
    result_new_saved 2
  ∧ ¬ Models.depends_on (Models.ValueCountResult_save results_db result_new).1
        result_new_saved 3.
Proof.
  assert (Models.ValueCountResult_save results_db result_new
          = ((Models.ValueCountResult_save results_db result_new).1,
             Ret result_new_saved)) as Hsave by reflexivity.
  assert (Models.vcr_id result_new = None) as Hnew by reflexivity.
  split.
  - apply (new_result_depends_on_its_layers _ _ _ _ 2 results_db_through_ok
             Hnew Hsave).
    by exists "b", "2".
  - intros Hdep.
    apply (new_result_depends_on_its_layers _ _ _ _ 3 results_db_through_ok
             Hnew Hsave) in Hdep as (alias & layer_id & Halias & Hint).
    destruct (decide (alias = "a")) as [->|Ha].
    { assert (layer_id = "1") as -> by (by injection Halias). discriminate Hint. }
    destruct (decide (alias = "b")) as [->|Hb].
    { assert (layer_id = "2") as -> by (by injection Halias). discriminate Hint. }
    change (({[ "a" := "1"; "b" := "2" ]} : gmap string string) !! alias
            = Some layer_id) in Halias.
    by rewrite lookup_insert_ne, lookup_singleton_ne in Halias.
Defined.

(** ** parser.py: what a run stores *)

Section RunFacts.
Import Models Parser.
Context `{Raster} `{Clock}.
Variable repr_fields : list string → string.

Lemma self_log_layer_in_step (self_ : AggregationLayer) (st : Run)
    (msg : string) :
  al_id (self st) = al_id self_ →
  name_column (self st) = name_column self_ →
  simplification_tolerance (self st) = simplification_tolerance self_ →
  layer_in_step self_ (self_log st msg).
Proof.
  intros Hid Hcol Htol. unfold layer_in_step, self_log, log. simpl.
  destruct (Model_save_layer_get (db st)
              (with_parse_log (self st)
                 (parse_log (self st) +:+ Py.nl +:+ ("[" +:+ now (clock st)
                  +:+ "] ") +:+ msg))) as [Hget _].
  by split.
Qed.

Lemma self_log_results (st : Run) (msg : string) :
  valuecountresults (db (self_log st msg)) = valuecountresults (db st)
  ∧ aggregationareas (db (self_log st msg)) = aggregationareas (db st).
Proof.
  unfold self_log, log. simpl.
  destruct (Model_save_layer_frame (db st)
              (with_parse_log (self st)
                 (parse_log (self st) +:+ Py.nl +:+ ("[" +:+ now (clock st)
                  +:+ "] ") +:+ msg))) as (? & _ & ?).
  done.
Qed.

(** One turn of the loop on a step where the layer is in place: the
    layer stays in place, the cached results stay, and the areas grow by
    nothing or by one area stored as a run stores it. *)
Lemma parse_feature_stores (self_ : AggregationLayer) (ct : CT) (st : Run)
    (feat : OGRFeature) :
  layer_in_step self_ st →
  layer_in_step self_ (parse_feature ct st feat)
  ∧ valuecountresults (db (parse_feature ct st feat))
    = valuecountresults (db st)
  ∧ ∃ new, aggregationareas (db (parse_feature ct st feat))
           = aggregationareas (db st) ++ new
           ∧ Forall (stored_by_run self_) new.
Proof.
  intros (Hget & Hid & Hcol & Htol).
  assert (∀ msg,
            layer_in_step self_ (self_log st msg)
            ∧ valuecountresults (db (self_log st msg))
              = valuecountresults (db st)
            ∧ ∃ new, aggregationareas (db (self_log st msg))
                     = aggregationareas (db st) ++ new
                     ∧ Forall (stored_by_run self_) new) as Hwarn.
  { intros msg. split; [by apply self_log_layer_in_step|].
    destruct (self_log_results st msg) as [-> ->]. split; [done|].
    exists []. by rewrite app_nil_r. }
  unfold parse_feature.
  destruct (_ ≫= _) as [wgsgeom|]; [|apply Hwarn].
  destruct (_ ≫= _) as [geom_|]; [|apply Hwarn].
  case_decide as Hvalid; [apply Hwarn|].
  destruct (empty geom_) eqn:Hempty; [apply Hwarn|].
  destruct (feat_get feat (name_column (self st))) as [name|]; [|apply Hwarn].
  destruct (aggregationarea_set_create st name geom_) as [db_ res] eqn:Hcreate.
  unfold aggregationarea_set_create in Hcreate.
  destruct (AggregationArea_save_inv _ _ _ _ Hcreate)
    as [[-> [e ->]]|(layer_id & lyr & g & Hlayer & Hlyr & Hconvert & Hmodel)].
  { apply Hwarn. }
  simpl in Hlayer, Hconvert. injection Hlayer as <-.
  rewrite Hget in Hlyr. injection Hlyr as <-.
  assert (aggregationlayers db_ = aggregationlayers (db st)
          ∧ valuecountresults db_ = valuecountresults (db st)) as [Hlayers Hresults].
  { unfold Model_save_area in Hmodel. simpl in Hmodel.
    case_decide; by simplify_eq/=. }
  destruct res as [saved|e].
  - split; [|split].
    + unfold layer_in_step, get_layer. simpl. rewrite Hlayers.
      by repeat split.
    + done.
    + exists [saved]. unfold Model_save_area in Hmodel. simpl in Hmodel.
      case_decide; simplify_eq/=. split; [done|].
      apply Forall_singleton. unfold stored_by_run. simpl.
      split; [by rewrite Hid|]. split; [by eexists|].
      split; [done|]. split; [done|].
      exists g. by rewrite <- Htol.
  - assert (aggregationareas db_ = aggregationareas (db st)) as Hareas.
    { unfold Model_save_area in Hmodel. simpl in Hmodel.
      case_decide; by simplify_eq/=. }
    match goal with |- context [self_log (with_db st db_) ?msg] =>
      destruct (self_log_results (with_db st db_) msg) as [Hr Ha];
      split; [by apply self_log_layer_in_step|];
      rewrite Hr, Ha end.
    simpl. rewrite Hresults, Hareas. split; [done|].
    exists []. by rewrite app_nil_r.
Qed.

Lemma parse_features_store (self_ : AggregationLayer) (ct : CT)
    (feats : list OGRFeature) (st : Run) :
  layer_in_step self_ st →
  layer_in_step self_ (fold_left (parse_feature ct) feats st)
  ∧ valuecountresults (db (fold_left (parse_feature ct) feats st))
    = valuecountresults (db st)
  ∧ ∃ new, aggregationareas (db (fold_left (parse_feature ct) feats st))
           = aggregationareas (db st) ++ new
           ∧ Forall (stored_by_run self_) new.
Proof.
  revert st. induction feats as [|feat feats IH]; intros st Hstep; simpl.
  - split; [done|]. split; [done|]. exists []. by rewrite app_nil_r.
  - destruct (parse_feature_stores self_ ct st feat Hstep)
      as (Hstep1 & Hresults1 & new1 & Hareas1 & Hnew1).
    destruct (IH _ Hstep1) as (Hstep2 & Hresults2 & new2 & Hareas2 & Hnew2).
    split; [done|]. split; [congruence|].
    exists (new1 ++ new2). rewrite Hareas2, Hareas1, <- app_assoc.
    split; [done|]. by apply Forall_app.
Qed.

(** A run that passes the checks before the loop: the areas of the layer
    are deleted, the features are worked through, the end is logged. *)
Lemma parse_passes_checks (self_ : AggregationLayer) (db_ : DB) (t : nat)
    (lyr : OGRLayer) (ct : CT) :
  Py.lower (name_column self_) ∈ Py.lower <$> fields lyr →
  CoordTransform (srs lyr) WEB_MERCATOR_SRID = Ret ct →
  ∃ st0 st1,
    st0 = self_log {| self := self_; db := db_; clock := t |}
            ("Started parsing Aggregation Layer " +:+ Py.str_int (al_id self_))
    ∧ st1 = fold_left (parse_feature ct) (features lyr)
              (with_db st0
                 (delete_areas (db st0)
                    (λ a, aggregationlayer a = Some (al_id self_))))
    ∧ parse repr_fields self_ db_ t (Layer lyr)
      = self_log st1 ("Finished parsing Aggregation Layer "
                      +:+ Py.str_int (al_id (self st1))).
Proof.
  intros Hcolumn Hct. eexists _, _. split; [done|]. split; [done|].
  unfold parse. simpl. rewrite decide_False by (by intros ?).
  by rewrite Hct.
Qed.

Lemma filter_idemp {A} (P : A → Prop) `{∀ x, Decision (P x)} (l : list A) :
  filter P (filter P l) = filter P l.
Proof. apply filter_all. by intros x [? _]%list_elem_of_filter. Qed.

(** The state a run that passes the checks ends in. *)
Lemma parse_run_state (self_ : AggregationLayer) (db_ : DB) (t : nat)
    (lyr : OGRLayer) (ct : CT) :
  Py.lower (name_column self_) ∈ Py.lower <$> fields lyr →
  CoordTransform (srs lyr) WEB_MERCATOR_SRID = Ret ct →
  valuecountresults (db (parse repr_fields self_ db_ t (Layer lyr)))
  = filter (λ r, Some (aggregationarea r)
                 ∉ area_id
                   <$> filter (λ a, aggregationlayer a = Some (al_id self_))
                         (aggregationareas db_))
      (valuecountresults db_)
  ∧ ∃ new,
      aggregationareas (db (parse repr_fields self_ db_ t (Layer lyr)))
      = filter (λ a, aggregationlayer a ≠ Some (al_id self_))
          (aggregationareas db_) ++ new
      ∧ Forall (stored_by_run self_) new.
Proof.
  intros Hcolumn Hct.
  destruct (parse_passes_checks self_ db_ t lyr ct Hcolumn Hct)
    as (st0 & st1 & Hst0 & Hst1 & ->).
  destruct (self_log_results st1
              ("Finished parsing Aggregation Layer "
               +:+ Py.str_int (al_id (self st1)))) as [-> ->].
  assert (layer_in_step self_ st0) as Hstep0
    by (rewrite Hst0; by apply self_log_layer_in_step).
  destruct (self_log_results {| self := self_; db := db_; clock := t |}
              ("Started parsing Aggregation Layer "
               +:+ Py.str_int (al_id self_))) as [Hresults0 Hareas0].
  rewrite <- Hst0 in Hresults0, Hareas0. simpl in Hresults0, Hareas0.
  destruct (parse_features_store self_ ct (features lyr)
              (with_db st0
                 (delete_areas (db st0)
                    (λ a, aggregationlayer a = Some (al_id self_)))))
    as (_ & Hresults & new & Hareas & Hnew).
  { destruct Hstep0 as (Hget & Hid & Hcol & Htol). by repeat split. }
  rewrite <- Hst1 in Hresults, Hareas. rewrite Hresults, Hareas. simpl.
  rewrite Hresults0, Hareas0. split; [done|]. by exists new.
Qed.

(** X10. Whatever the shapefile, a run on a layer leaves the areas of the
    other layers as they are, in their order. *)
Theorem parse_leaves_other_layers (self_ : AggregationLayer) (db_ : DB)
    (t : nat) (shapefile : Shapefile) :
  filter (λ a, aggregationlayer a ≠ Some (al_id self_))
    (aggregationareas (db (parse repr_fields self_ db_ t shapefile)))
  = filter (λ a, aggregationlayer a ≠ Some (al_id self_))
      (aggregationareas db_).
Proof.
  assert (file_level_failure self_ shapefile →
          aggregationareas (db (parse repr_fields self_ db_ t shapefile))
          = aggregationareas db_) as Habort.
  { intros [reason ->]%(parse_file_level_failure repr_fields _ db_ t).
    destruct (self_log_results
                (self_log {| self := self_; db := db_; clock := t |}
                   ("Started parsing Aggregation Layer "
                    +:+ Py.str_int (al_id self_)))
                ("Error: " +:+ reason)) as [_ ->].
    apply self_log_results. }
  destruct shapefile as [| | |lyr]; [by rewrite Habort..|].
  destruct (decide (Py.lower (name_column self_) ∈ Py.lower <$> fields lyr))
    as [Hcolumn|Hcolumn]; [|rewrite Habort; [done|by left]].
  destruct (CoordTransform (srs lyr) WEB_MERCATOR_SRID) as [ct|e] eqn:Hct;
    [|rewrite Habort; [done|right; by exists e]].
  destruct (parse_run_state self_ db_ t lyr ct Hcolumn Hct)
    as (_ & new & -> & Hnew).
  rewrite filter_app, filter_idemp.
  rewrite (filter_none _ new); [by rewrite app_nil_r|].
  intros a Ha Hlayer. rewrite Forall_forall in Hnew.
  by destruct (Hnew a Ha) as [? _].
Qed.

(** X11. After a run that passes the checks before the loop, every area
    of the layer in the database is one the run stored: it has an id, its
    geometry is valid and not empty, and its simplified geometry is the
    multipolygon form of its own geometry simplified at the tolerance of
    the layer. *)
Theorem parse_stores_checked_areas (self_ : AggregationLayer) (db_ : DB)
    (t : nat) (lyr : OGRLayer) (ct : CT) (a : AggregationArea) :
  Py.lower (name_column self_) ∈ Py.lower <$> fields lyr →
  CoordTransform (srs lyr) WEB_MERCATOR_SRID = Ret ct →
  a ∈ aggregationareas (db (parse repr_fields self_ db_ t (Layer lyr))) →
  aggregationlayer a = Some (al_id self_) →
  is_Some (area_id a)
  ∧ valid_reason (geom a) = "Valid Geometry"
  ∧ empty (geom a) = false
  ∧ ∃ g, convert_to_multipolygon
           (simplify (geom a) (simplification_tolerance self_) true) = Ret g
         ∧ geom_simplified a = Some g.
Proof.
  intros Hcolumn Hct Ha Hlayer.
  destruct (parse_run_state self_ db_ t lyr ct Hcolumn Hct)
    as (_ & new & Hareas & Hnew).
  rewrite Hareas in Ha.
  apply elem_of_app in Ha as [[Hother _]%list_elem_of_filter|Ha]; [done|].
  rewrite Forall_forall in Hnew. by destruct (Hnew a Ha) as (_ & ? & ? & ? & ?).
Qed.

(** X12. A run that passes the checks before the loop takes the cached
    results of the layer's former areas with them: the results left are
    those of the areas that were not of the layer, each as it was. *)
Theorem parse_drops_results_of_replaced_areas (self_ : AggregationLayer)
    (db_ : DB) (t : nat) (lyr : OGRLayer) (ct : CT) :
  Py.lower (name_column self_) ∈ Py.lower <$> fields lyr →
  CoordTransform (srs lyr) WEB_MERCATOR_SRID = Ret ct →
  ∀ r, r ∈ valuecountresults (db (parse repr_fields self_ db_ t (Layer lyr)))
       ↔ r ∈ valuecountresults db_
         ∧ ¬ ∃ a, a ∈ aggregationareas db_
                  ∧ aggregationlayer a = Some (al_id self_)
                  ∧ area_id a = Some (aggregationarea r).
Proof.
  intros Hcolumn Hct r.
  destruct (parse_run_state self_ db_ t lyr ct Hcolumn Hct) as (-> & _).
  rewrite list_elem_of_filter, list_elem_of_fmap. split.
  - intros [Hkept Hr]. split; [done|]. intros (a & Ha & Hlayer & Hid).
    apply Hkept. exists a. split; [done|]. by apply list_elem_of_filter.
  - intros [Hr Hkept]. split; [|done].
    intros (a & Hid & [Hlayer Ha]%list_elem_of_filter).
    apply Hkept. by exists a.
Qed.

End RunFacts.

(** The run on [shapefile_good] over [results_db]: Pinellas is stored with
    its corners snapped to the grid of 4, and the two cached results, both
    for Coverall, are gone with it. *)
Example parse_good_run_stores :
  Models.geom_simplified
  <$> filter (λ a, Models.aggregationlayer a = Some 10%Z)
        (Models.aggregationareas
           (Parser.db
              (Parser.parse repr_fields layer_10 results_db 0 shapefile_good)))
  = [Some {| xmin := 0; ymin := 0; xmax := 48; ymax := 48 |}]
  ∧ Models.valuecountresults
      (Parser.db (Parser.parse repr_fields layer_10 results_db 0 shapefile_good))
    = [].
Proof. split; reflexivity. Qed.

Example shapefile_good_passes_checks :
  Py.lower (Models.name_column layer_10)
  ∈ Py.lower <$> Parser.fields ogr_layer_good.
Proof. apply (bool_decide_unpack _). reflexivity. Qed.

Lemma parse_stores_checked_areas_witness :
  pinellas_stored
  ∈ Models.aggregationareas
      (Parser.db (Parser.parse repr_fields layer_10 results_db 0 shapefile_good))
  ∧ is_Some (Models.area_id pinellas_stored)
  ∧ valid_reason (Models.geom pinellas_stored) = "Valid Geometry"
  ∧ empty (Models.geom pinellas_stored) = false
  ∧ ∃ g, convert_to_multipolygon
           (simplify (Models.geom pinellas_stored)
              (Models.simplification_tolerance layer_10) true) = Ret g
         ∧ Models.geom_simplified pinellas_stored = Some g.
Proof.
  assert (pinellas_stored
          ∈ Models.aggregationareas
              (Parser.db
                 (Parser.parse repr_fields layer_10 results_db 0 shapefile_good)))
    as Hin.
  { apply (list_elem_of_lookup_2 _ 1%nat). reflexivity. }
  split; [exact Hin|].
  exact (parse_stores_checked_areas repr_fields layer_10 results_db 0
           ogr_layer_good () pinellas_stored shapefile_good_passes_checks
           eq_refl Hin eq_refl).
Defined.

(** The cached result 1 is for Coverall, an area of layer 10: the run on
    [shapefile_good] does not leave it. *)
Lemma parse_drops_results_of_replaced_areas_witness :
  ¬ result_1
    ∈ Models.valuecountresults
        (Parser.db
           (Parser.parse repr_fields layer_10 results_db 0 shapefile_good)).
Proof.
  intros Hin.
  apply (parse_drops_results_of_replaced_areas repr_fields layer_10 results_db
           0 ogr_layer_good () shapefile_good_passes_checks eq_refl)
    in Hin as [_ Hkept].
  apply Hkept. exists coverall. split; [left|]. split; reflexivity.
Defined.

(** ** urls.py: a tile path and the keyword arguments of the view *)

Section UrlFacts.
Import Urls.

Lemma append_cons (c : ascii) (s t : string) :
  String c s +:+ t = String c (s +:+ t).
Proof. reflexivity. Qed.

Lemma append_eq_nil (s t : string) : s +:+ t = "" → t = "".
Proof. destruct s; [done|]. rewrite append_cons. discriminate. Qed.

Lemma strip_prefix_Some (prefix s rest : string) :
  strip_prefix prefix s = Some rest → s = prefix +:+ rest.
Proof.
  revert s. induction prefix as [|a prefix IH]; intros s Hs; simpl in Hs.
  - by simplify_eq.
  - destruct s as [|b s]; [done|].
    destruct (Ascii.eqb a b) eqn:Hab; [|done].
    apply Ascii.eqb_eq in Hab as ->.
    rewrite append_cons. f_equal. by apply IH.
Qed.

Lemma strip_prefix_app (prefix rest : string) :
  strip_prefix prefix (prefix +:+ rest) = Some rest.
Proof.
  induction prefix as [|a prefix IH]; [done|].
  rewrite append_cons. simpl. by rewrite Ascii.eqb_refl.
Qed.

Lemma split_not_nil (sep : ascii) (s : string) : split sep s ≠ [].
Proof.
  destruct s as [|c s]; simpl; [done|].
  destruct (Ascii.eqb c sep); [done|]. by destruct (split sep s).
Qed.

Lemma join_split (sep : ascii) (s : string) :
  Py.join (String sep "") (split sep s) = s.
Proof.
  induction s as [|c s IH]; [done|]. simpl.
  destruct (Ascii.eqb c sep) eqn:Hc.
  - apply Ascii.eqb_eq in Hc as ->.
    pose proof (split_not_nil sep s) as Hne.
    destruct (split sep s) as [|piece pieces] eqn:Hs; [done|].
    change (Py.join (String sep "") ("" :: piece :: pieces))
      with ("" +:+ String sep "" +:+ Py.join (String sep "") (piece :: pieces)).
    by rewrite IH.
  - destruct (split sep s) as [|piece pieces] eqn:Hs.
    + by destruct (split_not_nil sep s).
    + destruct pieces as [|piece' pieces].
      * simpl in *. by rewrite IH.
      * change (Py.join (String sep "") (String c piece :: piece' :: pieces))
          with (String c piece +:+ String sep ""
                +:+ Py.join (String sep "") (piece' :: pieces)).
        rewrite append_cons. f_equal. exact IH.
Qed.

Lemma split_app_sep (sep : ascii) (s rest : string) :
  forallb (λ c, negb (Ascii.eqb c sep)) (String.list_ascii_of_string s) = true →
  split sep (s +:+ String sep rest) = s :: split sep rest.
Proof.
  induction s as [|c s IH]; intros Hs.
  - change ("" +:+ String sep rest) with (String sep rest). simpl.
    by rewrite Ascii.eqb_refl.
  - simpl in Hs. apply andb_true_iff in Hs as [Hc Hs].
    rewrite append_cons. simpl.
    apply negb_true_iff in Hc. rewrite Hc. by rewrite IH.
Qed.

Lemma split_no_sep (sep : ascii) (s : string) :
  forallb (λ c, negb (Ascii.eqb c sep)) (String.list_ascii_of_string s) = true →
  split sep s = [s].
Proof.
  induction s as [|c s IH]; intros Hs; [done|].
  simpl in Hs. apply andb_true_iff in Hs as [Hc Hs].
  simpl. apply negb_true_iff in Hc. rewrite Hc. by rewrite IH.
Qed.

Lemma list_ascii_app (s t : string) :
  String.list_ascii_of_string (s +:+ t)
  = String.list_ascii_of_string s ++ String.list_ascii_of_string t.
Proof.
  induction s as [|c s IH]; [done|]. rewrite append_cons. simpl. by rewrite IH.
Qed.

Lemma span_digits_eq (s digits suffix : string) :
  span_digits s = (digits, suffix) → s = digits +:+ suffix.
Proof.
  revert digits. induction s as [|c s IH]; intros digits Hs; simpl in Hs.
  - by simplify_eq.
  - destruct (Py.is_digit c); [|by simplify_eq].
    destruct (span_digits s) as [digits' suffix'] eqn:Hspan. simplify_eq.
    rewrite append_cons. f_equal. by apply IH.
Qed.

Lemma span_digits_app (digits suffix : string) :
  forallb Py.is_digit (String.list_ascii_of_string digits) = true →
  match suffix with
  | EmptyString => True
  | String c _ => Py.is_digit c = false
  end →
  span_digits (digits +:+ suffix) = (digits, suffix).
Proof.
  intros Hd Hsuffix. induction digits as [|c digits IH].
  - change ("" +:+ suffix) with suffix.
    destruct suffix as [|c suffix]; [done|]. simpl. by rewrite Hsuffix.
  - simpl in Hd. apply andb_true_iff in Hd as [Hc Hd].
    rewrite append_cons. simpl. rewrite Hc, IH; done.
Qed.

Lemma drop_final_newline_cases (s : string) :
  s = drop_final_newline s ∨ s = drop_final_newline s +:+ Py.nl.
Proof.
  induction s as [|c s IH]; [by left|]. simpl.
  destruct (bool_decide (s = "")) eqn:Hs; simpl.
  - apply bool_decide_eq_true in Hs as ->.
    destruct (Ascii.eqb c (ascii_of_nat 10)) eqn:Hc.
    + apply Ascii.eqb_eq in Hc as ->. by right.
    + by left.
  - destruct IH as [IH|IH].
    + left. by rewrite <-IH.
    + right. rewrite append_cons. by rewrite <-IH.
Qed.

Lemma drop_final_newline_app (s t : string) :
  t ≠ "" → drop_final_newline t = t →
  s +:+ t ≠ "" ∧ drop_final_newline (s +:+ t) = s +:+ t.
Proof.
  intros Hne Ht. split.
  { intros Hnil. by apply append_eq_nil in Hnil. }
  induction s as [|c s IH]; [done|].
  rewrite append_cons. simpl.
  rewrite bool_decide_eq_false_2; simpl.
  - by rewrite IH.
  - intros Hnil. by apply append_eq_nil in Hnil.
Qed.

Lemma is_digits_forallb (s : string) :
  Py.is_digits s = true →
  forallb Py.is_digit (String.list_ascii_of_string s) = true.
Proof. by destruct s. Qed.

Lemma is_digit_no_slash (c : ascii) :
  Py.is_digit c = true → negb (Ascii.eqb c "/") = true.
Proof.
  intros Hc. apply negb_true_iff, Ascii.eqb_neq. by intros ->.
Qed.

Lemma digits_no_slash (s : string) :
  forallb Py.is_digit (String.list_ascii_of_string s) = true →
  forallb (λ c, negb (Ascii.eqb c "/")) (String.list_ascii_of_string s) = true.
Proof.
  induction s as [|c s IH]; [done|]. simpl.
  intros [Hc Hs]%andb_true_iff.
  by rewrite (is_digit_no_slash c Hc), IH.
Qed.

Lemma no_slash_forallb (s : string) :
  no_slash s = true →
  forallb (λ c, negb (Ascii.eqb c "/")) (String.list_ascii_of_string s) = true.
Proof. by destruct s. Qed.

(** X13. Every tuple of pieces that the groups of the pattern accept has a
    path, made of the pieces after [vtiles/] with slashes between the first
    four, and the route resolves this path to exactly these pieces. *)
Theorem tile_path_resolves (p : TilePath) :
  vector_tiles_match p = true →
  vector_tiles_resolve
    ("vtiles/" +:+ layergroup p +:+ "/" +:+ z p +:+ "/" +:+ x p +:+ "/"
     +:+ y p +:+ response_format p) = Some p.
Proof.
  destruct p as [g z_ x_ y_ fmt]. unfold vector_tiles_match. simpl.
  intros Hmatch.
  repeat (apply andb_true_iff in Hmatch as [Hmatch ?]).
  assert (forallb Py.is_digit (String.list_ascii_of_string y_) = true) as Hy
    by by apply is_digits_forallb.
  assert (fmt ≠ "" ∧ drop_final_newline fmt = fmt
          ∧ split "/" (y_ +:+ fmt) = [y_ +:+ fmt]
          ∧ span_digits (y_ +:+ fmt) = (y_, fmt)) as (Hne & Hdrop & Hsplit & Hspan).
  { assert (fmt = ".json" ∨ fmt = ".pbf") as [->| ->].
    { match goal with Hf : _ || _ = true |- _ =>
        apply orb_true_iff in Hf as [Hf|Hf];
        apply bool_decide_eq_true in Hf; auto end. }
    - repeat split; [done|..].
      + apply split_no_sep. rewrite list_ascii_app, forallb_app.
        by rewrite digits_no_slash.
      + by apply span_digits_app.
    - repeat split; [done|..].
      + apply split_no_sep. rewrite list_ascii_app, forallb_app.
        by rewrite digits_no_slash.
      + by apply span_digits_app. }
  unfold vector_tiles_resolve, vector_tiles_groups.
  assert (drop_final_newline
            ("vtiles/" +:+ g +:+ "/" +:+ z_ +:+ "/" +:+ x_ +:+ "/" +:+ y_ +:+ fmt)
          = "vtiles/" +:+ g +:+ "/" +:+ z_ +:+ "/" +:+ x_ +:+ "/" +:+ y_ +:+ fmt)
    as ->.
  { repeat (apply drop_final_newline_app; [apply drop_final_newline_app|]);
      try done.
    all: repeat (apply drop_final_newline_app); done. }
  rewrite strip_prefix_app.
  change (split "/" (g +:+ "/" +:+ z_ +:+ "/" +:+ x_ +:+ "/" +:+ y_ +:+ fmt))
    with (split "/" (g +:+ String "/" (z_ +:+ String "/"
                                         (x_ +:+ String "/" (y_ +:+ fmt))))).
  rewrite (split_app_sep "/" g) by by apply no_slash_forallb.
  rewrite (split_app_sep "/" z_)
    by by apply digits_no_slash, is_digits_forallb.
  rewrite (split_app_sep "/" x_)
    by by apply digits_no_slash, is_digits_forallb.
  rewrite Hsplit, Hspan.
  unfold vector_tiles_match. simpl.
  repeat match goal with Hb : _ = true |- _ => rewrite Hb; clear Hb end.
  done.
Qed.

(** X14. The keyword arguments the view receives are pieces of the
    requested path: put together again they give the path, up to one
    newline at its end, and they are accepted by the groups of the pattern
    (no slash in the group, digits for z, x and y, one of the two formats). *)
Theorem resolved_path_is_its_pieces (path : string) (p : TilePath) :
  vector_tiles_resolve path = Some p →
  vector_tiles_match p = true
  ∧ let pieces :=
      "vtiles/" +:+ layergroup p +:+ "/" +:+ z p +:+ "/" +:+ x p +:+ "/"
      +:+ y p +:+ response_format p in
    path = pieces ∨ path = pieces +:+ Py.nl.
Proof.
  unfold vector_tiles_resolve, vector_tiles_groups.
  destruct (strip_prefix "vtiles/" (drop_final_newline path)) as [rest|] eqn:Hstrip;
    [|done].
  apply strip_prefix_Some in Hstrip.
  pose proof (join_split "/" rest) as Hjoin.
  destruct (split "/" rest) as [|g [|z_ [|x_ [|last [|? ?]]]]]; try done.
  destruct (span_digits last) as [y_ fmt] eqn:Hspan.
  apply span_digits_eq in Hspan.
  destruct (vector_tiles_match _) eqn:Hmatch; [|done].
  intros [= <-]. split; [exact Hmatch|]. simpl.
  assert (drop_final_newline path
          = "vtiles/" +:+ g +:+ "/" +:+ z_ +:+ "/" +:+ x_ +:+ "/" +:+ y_ +:+ fmt)
    as <-.
  { rewrite Hstrip, <-Hjoin, Hspan. reflexivity. }
  apply drop_final_newline_cases.
Qed.

End UrlFacts.

(** The pieces of the JSON tile (80, 80) of zoom 7 in group 1, and their
    path. *)
Lemma tile_path_resolves_witness :
  Urls.vector_tiles_resolve "vtiles/1/7/80/80.json" = Some tile_json.
Proof. exact (tile_path_resolves tile_json eq_refl). Defined.

(** The same tile as a vector tile, requested with a newline after the
    path. *)
Lemma resolved_path_is_its_pieces_witness :
  Urls.vector_tiles_match tile_pbf = true
  ∧ (("vtiles/1/7/80/80.pbf" +:+ Py.nl) = "vtiles/1/7/80/80.pbf"
     ∨ ("vtiles/1/7/80/80.pbf" +:+ Py.nl) = "vtiles/1/7/80/80.pbf" +:+ Py.nl).
Proof.
  exact (resolved_path_is_its_pieces ("vtiles/1/7/80/80.pbf" +:+ Py.nl)
           tile_pbf eq_refl).
Defined.

(** ** views.py: the ids parameter of the area endpoints *)

Section AreaViewFacts.
Import Models AreaViews.
Context `{Raster}.



Lemma prep_ids_Raise (values : list string) (value : string) :
  value ∈ values → to_int value = None → prep_ids values = Raise ValueError.
Proof.
  induction values as [|v values IH]; intros Hin Hnone.
  - by apply elem_of_nil in Hin.
  - simpl. destruct (to_int v) as [n|] eqn:Hn; [|done].
    apply elem_of_cons in Hin as [->|Hin]; [congruence|].
    by rewrite IH.
Qed.

Lemma last_filter_key {A} (key : string) (q1 q2 : list (string * A)) (v : A) :
  (∀ kv, kv ∈ q2 → kv.1 ≠ key) →
  last (filter (λ kv, kv.1 = key) (q1 ++ (key, v) :: q2)).*2 = Some v.
Proof.
  intros Hq2.
  rewrite filter_app, filter_cons_True by done.
  assert (filter (λ kv : string * A, kv.1 = key) q2 = []) as ->.
  { induction q2 as [|kv q2 IH]; [done|].
    rewrite filter_cons_False by (apply Hq2; left).
    apply IH. intros kv' Hkv'. apply Hq2. by right. }
  rewrite fmap_app. apply last_snoc.
Qed.

Lemma QueryDict_get_last (key : string) (before after : ValueView.QueryDict)
    (v : string) :
  (∀ kv, kv ∈ after → kv.1 ≠ key) →
  QueryDict_get key (before ++ (key, v) :: after) = Some v.
Proof. apply last_filter_key. Qed.


(** X16. One entry of the ids parameter that is no integer, such as the
    empty entry after a comma at the end, makes both area endpoints fail
    with ValueError, whatever the other entries are. *)
Theorem area_queryset_bad_id (db : DB) (query_params : ValueView.QueryDict)
    (ids value : string) :
  QueryDict_get "ids" query_params = Some ids →
  value ∈ Urls.split "," ids →
  to_int value = None →
  ids ≠ "" →
  AggregationAreaViewSet_get_queryset db query_params = Raise ValueError
  ∧ AggregationAreaValueViewSet_get_queryset db query_params = Raise ValueError.
Proof.
  intros Hget Hvalue Hnone Hne.
  unfold AggregationAreaViewSet_get_queryset,
    AggregationAreaValueViewSet_get_queryset, filter_id_in.
  rewrite Hget, decide_False by done.
  by rewrite (prep_ids_Raise _ value Hvalue Hnone).
Qed.

(** X17. Of several ids parameters in one query string the last one
    counts: the earlier ones, and the parameters of other names, change
    nothing in what the area endpoints select. *)
Theorem area_queryset_last_ids_counts (db : DB)
    (before after : ValueView.QueryDict) (ids : string) :
  (∀ kv, kv ∈ after → kv.1 ≠ "ids") →
  AggregationAreaViewSet_get_queryset db (before ++ ("ids", ids) :: after)
  = AggregationAreaViewSet_get_queryset db [("ids", ids)]
  ∧ AggregationAreaValueViewSet_get_queryset db
      (before ++ ("ids", ids) :: after)
    = AggregationAreaValueViewSet_get_queryset db [("ids", ids)].
Proof.
  intros Hafter.
  unfold AggregationAreaViewSet_get_queryset,
    AggregationAreaValueViewSet_get_queryset.
  rewrite (QueryDict_get_last "ids" before after ids Hafter).
  by assert (QueryDict_get "ids" [("ids", ids)] = Some ids) as -> by done.
Qed.

End AreaViewFacts.


(** A comma at the end leaves an empty entry. *)
Lemma area_queryset_bad_id_witness :
  AreaViews.AggregationAreaViewSet_get_queryset tiles_db [("ids", "1,")]
  = Raise ValueError
  ∧ AreaViews.AggregationAreaValueViewSet_get_queryset tiles_db [("ids", "1,")]
    = Raise ValueError.
Proof.
  apply (area_queryset_bad_id tiles_db [("ids", "1,")] "1," "");
    [reflexivity| |reflexivity|discriminate].
  change (Urls.split "," "1,") with ["1"; ""]. right. left.
Defined.

(** The query string [ids=1&aggregationlayer=10&ids=2&page=2]. *)
Lemma area_queryset_last_ids_counts_witness :
  AreaViews.AggregationAreaViewSet_get_queryset tiles_db
    ([("ids", "1"); ("aggregationlayer", "10")] ++ ("ids", "2") :: [("page", "2")])
  = AreaViews.AggregationAreaViewSet_get_queryset tiles_db [("ids", "2")]
  ∧ AreaViews.AggregationAreaValueViewSet_get_queryset tiles_db
      ([("ids", "1"); ("aggregationlayer", "10")]
       ++ ("ids", "2") :: [("page", "2")])
    = AreaViews.AggregationAreaValueViewSet_get_queryset tiles_db [("ids", "2")].
Proof.
  apply (area_queryset_last_ids_counts tiles_db
           [("ids", "1"); ("aggregationlayer", "10")] [("page", "2")] "2").
  intros kv Hkv. apply list_elem_of_singleton in Hkv as ->. discriminate.
Defined.

(** ** views.py: a tile of a group that is not stored *)

Section TileGroupFacts.
Import Models Urls Views.
Context `{Raster}.
Variable router_urls : string → option (Res HttpResponse).

Lemma find_None_iff {A} (f : A → bool) (l : list A) :
  (∀ a, a ∈ l → f a = false) → List.find f l = None.
Proof.
  intros Hall. destruct (List.find f l) as [a|] eqn:Hfind; [|done].
  apply find_some in Hfind as [Hin Hf].
  apply list_elem_of_In in Hin. rewrite (Hall a Hin) in Hf. done.
Qed.

(** X18. A tile path whose group is the id of no stored layer group is not
    answered with a 404: the lookup of the group raises DoesNotExist, or
    ValueError when the group is no integer, before the zoom and the format
    are looked at, and the request ends as a server error. *)
Theorem tile_unknown_group_is_server_error (db : DB) (path : string)
    (p : TilePath) :
  router_urls path = None →
  vector_tiles_resolve path = Some p →
  (∀ g, g ∈ aggregationlayergroups db →
        to_int (layergroup p) ≠ Some (grp_id g)) →
  let e := match to_int (layergroup p) with
           | Some _ => DoesNotExist
           | None => ValueError
           end in
  get_response router_urls db path = Raise e
  ∧ VectorTilesView_get db p = Raise e
  ∧ status_code e = 500%Z.
Proof.
  intros Hrouter Hresolve Hgroups e.
  assert (VectorTilesView_get db p = Raise e) as Hget.
  { unfold VectorTilesView_get, select_layerzoomrange, get_group. subst e.
    destruct (to_int (layergroup p)) as [i|] eqn:Hi; [|done].
    rewrite find_None_iff; [done|].
    intros g Hg. apply bool_decide_eq_false. intros Hid.
    apply (Hgroups g Hg). by rewrite Hid. }
  split; [|split; [exact Hget|]].
  - unfold get_response. by rewrite Hrouter, Hresolve.
  - subst e. by destruct (to_int (layergroup p)).
Qed.

End TileGroupFacts.

(** Group 7 is not in [tiles_db]. *)
Lemma tile_unknown_group_is_server_error_witness :
  Views.get_response statistics_api tiles_db "vtiles/7/7/80/80.json"
  = Raise DoesNotExist
  ∧ Views.VectorTilesView_get tiles_db
      {| Urls.layergroup := "7"; Urls.z := "7"; Urls.x := "80";
         Urls.y := "80"; Urls.response_format := ".json" |}
    = Raise DoesNotExist
  ∧ status_code DoesNotExist = 500%Z.
Proof.
  assert (∀ g, g ∈ Models.aggregationlayergroups tiles_db →
               to_int "7" ≠ Some (Models.grp_id g)) as Hgroups.
  { intros g Hg. apply list_elem_of_singleton in Hg as ->. discriminate. }
  exact (tile_unknown_group_is_server_error statistics_api tiles_db
           "vtiles/7/7/80/80.json"
           {| Urls.layergroup := "7"; Urls.z := "7"; Urls.x := "80";
              Urls.y := "80"; Urls.response_format := ".json" |}
           eq_refl eq_refl Hgroups).
Defined.
